(** * distributive: the check contract (ID / New / Status) of package [checks]

    A shallow embedding of the health checks of the repository: every check
    is a Go struct with three methods, [ID], [New] (parameter validation and
    construction) and [Status] (the probe, returning [(int, string, error)]).
    The operating system and the network are read through the collaborators
    of packages [netstatus], [chkutil], [tabular] and [os/exec]; their
    answers are the fields of two records, [Lib] (pure library functions)
    and [World] (what the host reports), so that every [Status] is a
    function of the check, the library and the world. *)

From Stdlib Require Import ZArith List String Ascii Bool Lia DecimalString.
From stdpp Require Import base option list strings gmap.

Import ListNotations.
Local Open Scope string_scope.

(** ** Outcomes of a Go call

    A call returns, or ends the process through [log.Fatal], or panics
    (index out of range, nil dereference). *)

Inductive outcome (A : Type) : Type :=
| Ret (a : A)
| Fatal (msg : string)
| Panic (msg : string).

Arguments Ret {A} a.
Arguments Fatal {A} msg.
Arguments Panic {A} msg.

#[global] Instance outcome_ret : MRet outcome := @Ret.

#[global] Instance outcome_bind : MBind outcome :=
  fun A B (f : A -> outcome B) (m : outcome A) =>
    match m with
    | Ret a => f a
    | Fatal msg => Fatal msg
    | Panic msg => Panic msg
    end.

Definition returns {A} (m : outcome A) : bool :=
  match m with Ret _ => true | _ => false end.

(** ** Strings, as Go has them: sequences of bytes *)

Module GoStrings.

Fixpoint HasPrefix (s prefix : string) : bool :=
  match prefix, s with
  | EmptyString, _ => true
  | String a p', String b s' => Ascii.eqb a b && HasPrefix s' p'
  | String _ _, EmptyString => false
  end.

(** [strings.Contains(s, substr)] *)
Fixpoint Contains (s substr : string) : bool :=
  HasPrefix s substr ||
  match s with
  | EmptyString => false
  | String _ s' => Contains s' substr
  end.

(** [strings.Replace] of a non-empty [old] by the empty string, with no
    limit on the count (the only way the source calls it): every
    non-overlapping occurrence of [old], from the left, is deleted.
    [skip] counts the bytes of the occurrence being deleted. *)
Fixpoint delete_all_from (old : string) (skip : nat) (s : string) : string :=
  match s with
  | EmptyString => EmptyString
  | String c s' =>
      match skip with
      | S k => delete_all_from old k s'
      | O =>
          if HasPrefix s old
          then delete_all_from old (String.length old - 1) s'
          else String c (delete_all_from old 0 s')
      end
  end.

Definition Replace_all_with_empty (s old : string) : string :=
  delete_all_from old 0 s.

(** The escapes of Go's interpreted string literals that the source
    uses: newline, tab and the double quote, each one byte. *)
Definition newline : string := String (ascii_of_nat 10) EmptyString.
Definition tab : string := String (ascii_of_nat 9) EmptyString.

Definition dquote : string := String (ascii_of_nat 34) EmptyString.

(** [fmt.Sprint] of an integer: its decimal form. *)
Definition Sprint_int (z : Z) : string := NilZero.string_of_int (Z.to_int z).

(** [fmt.Sprint] of a [[]string]: the elements between brackets,
    separated by one space. *)
Fixpoint join_space (l : list string) : string :=
  match l with
  | [] => ""
  | [x] => x
  | x :: rest => x +:+ " " +:+ join_space rest
  end.

Definition Sprint_strings (l : list string) : string :=
  "[" +:+ join_space l +:+ "]".

End GoStrings.
Import GoStrings.

(** ** [strconv]: the two integer parsers, always called in base 10 *)

Module strconv.

Definition is_digit (c : ascii) : bool :=
  (48 <=? nat_of_ascii c)%nat && (nat_of_ascii c <=? 57)%nat.

Fixpoint digits_value (acc : Z) (s : string) : option Z :=
  match s with
  | EmptyString => Some acc
  | String c s' =>
      if is_digit c
      then digits_value (10 * acc + (Z.of_nat (nat_of_ascii c) - 48))%Z s'
      else None
  end.

(** [strconv.ParseUint(s, 10, bitSize)]: no sign, no underscore, at least
    one digit, and the value below [2^bitSize]; [inr] carries the text of
    the [*NumError]. *)
Definition ParseUint (s : string) (bitSize : Z) : Z + string :=
  match s with
  | EmptyString => inr "invalid syntax"
  | _ =>
      match digits_value 0 s with
      | None => inr "invalid syntax"
      | Some v => if (v <? 2 ^ bitSize)%Z then inl v else inr "value out of range"
      end
  end.

(** [strconv.ParseInt(s, 10, bitSize)]: an optional sign, then
    [ParseUint] on the rest, then the signed range. *)
Definition ParseInt (s : string) (bitSize : Z) : Z + string :=
  match s with
  | EmptyString => inr "invalid syntax"
  | String c rest =>
      let neg := Ascii.eqb c "-"%char in
      let body := if Ascii.eqb c "+"%char || neg then rest else s in
      match body with
      | EmptyString => inr "invalid syntax"
      | _ =>
          match digits_value 0 body with
          | None => inr "invalid syntax"
          | Some un =>
              let cutoff := (2 ^ (bitSize - 1))%Z in
              if neg
              then if (un <=? cutoff)%Z then inl (- un)%Z else inr "value out of range"
              else if (un <? cutoff)%Z then inl un else inr "value out of range"
          end
      end
  end.

End strconv.

(** ** Errors and results *)

(** The Go [error] values that leave a check: the two validation errors of
    package [errutil] (struct literals in the source) and any other error,
    known by its [Error()] text. *)
Inductive error : Type :=
| ParameterLengthError (expected : nat) (params : list string)
| ParameterTypeError (value : string) (expected : string)
| errorString (text : string).

(** The triple every [Status] returns. *)
Record Result : Type := mkResult {
  code : Z;
  message : string;
  cause : option error
}.

Module errutil.

(** Modelled from the spec: [errutil.Success], which is not among the
    sources. A passing check has code 0, no message and no error. *)
Definition Success : Result := mkResult 0 "" None.

(** Modelled from the spec: [errutil.GenericError], which is not among the
    sources. The check ran and the condition was false: a nonzero code
    (1, as the literal failures of the source), and a message naming the
    condition, the expected value and the observed values; no error. *)
Definition GenericError (msg specified : string) (actual : list string) : Result :=
  mkResult 1
    (msg +:+ ":" +:+ " specified: " +:+ specified
         +:+ " actual: " +:+ Sprint_strings actual)
    None.

(** Modelled from the spec: [errutil.IndexError], which is not among the
    sources. An index outside the slice is an infrastructure failure that
    ends the run through the fatal log. *)
Definition IndexError {A} (msg : string) (i : nat) (slc : list A) : outcome unit :=
  if (length slc <=? i)%nat then Fatal msg else Ret tt.

(** Modelled from the spec: [errutil.ExecError], which is not among the
    sources. A subprocess that failed ends the run through the fatal log;
    a nil error is no failure. *)
Definition ExecError (cmd : list string) (out : string) (err : option string)
  : outcome unit :=
  match err with
  | Some _ => Fatal "Failed to execute command"
  | None => Ret tt
  end.

End errutil.

Module tabular.

(** Modelled from the spec: [tabular.StrIn], which is not among the
    sources. Membership in a list the system provided is exact string
    match. *)
Definition StrIn (str : string) (slice : list string) : bool :=
  existsb (String.eqb str) slice.

End tabular.

(** ** The library and the world *)

(** [net.IP] is a byte slice; the nil slice is the empty list. *)
Definition IP : Type := list Byte.byte.

(** A compiled [*regexp.Regexp], known by its source text ([re.String()]). *)
Definition Regexp : Type := string.

(** [time.Duration]: a count of nanoseconds. *)
Definition Duration : Type := Z.

(** [net.Interface], the two fields the checks read. *)
Record Interface : Type := mkInterface {
  Name : string;
  Flags : N
}.

(** [net.FlagUp], the first flag bit. *)
Definition FlagUp : N := 1%N.

(** Pure functions of Go's library and of the helper packages of the
    repository that are not among the sources. The checks only call them;
    nothing is assumed about what they compute. *)
Record Lib : Type := mkLib {
  net_ParseIP : string -> IP;
  ip_String : IP -> string;
  ip_Equal : IP -> IP -> bool;
  ip_To4 : IP -> IP;
  netstatus_ValidIP : string -> bool;
  time_ParseDuration : string -> option Duration;
  regexp_Compile : string -> option Regexp;
  regexp_Match : Regexp -> string -> bool;
  regexp_Split : Regexp -> string -> list string;
  chkutil_SubmatchMap : Regexp -> string -> gmap string string;
  tabular_ProbabalisticSplit : string -> list (list string);
  tabular_GetColumnByHeader : string -> list (list string) -> list string
}.

(** How [cmd.Wait()] ended. *)
Inductive WaitResult : Type :=
| WaitOk
| WaitExitError (status : option Z)
| WaitOtherError (text : string).

(** What the host reports when a check asks. A command is its argument
    vector; an error is its [Error()] text. *)
Record World : Type := mkWorld {
  netstatus_PortOpen : string -> Z -> bool;
  netstatus_OpenPorts : string -> list Z;
  netstatus_GetInterfaces : list Interface;
  netstatus_InterfaceIPs : string -> list IP;
  netstatus_Resolvable : string -> bool;
  netstatus_CanConnect : string -> string -> Duration -> bool;
  chkutil_CommandOutput : list string -> outcome string;
  chkutil_URLToBytes : string -> bool -> outcome string;
  chkutil_CommandColumnNoHeader : nat -> list string -> outcome (list string);
  cmd_Start : list string -> option string;
  cmd_Wait : list string -> WaitResult;
  cmd_CombinedOutput : list string -> string * option string;
  cmd_CombinedOutput_again : list string -> string
}.

(** ** The checks *)

(** One constructor per struct type of the package, with its fields. *)
Inductive Check : Type :=
| Port (port : Z)
| PortTCP (port : Z)
| PortUDP (port : Z)
| InterfaceExists (name : string)
| Up (name : string)
| IP4 (name : string) (ip : IP)
| IP6 (name : string) (ip : IP)
| Gateway (ip : IP)
| GatewayInterface (name : string)
| Host (hostname : string)
| TCP (name : string)
| UDP (name : string)
| TCPTimeout (name : string) (timeout : Duration)
| UDPTimeout (name : string) (timeout : Duration)
| RoutingTableDestination (ip : IP)
| RoutingTableInterface (name : string)
| RoutingTableGateway (name : string)
| ResponseMatches (urlstr : string) (re : option Regexp)
| ResponseMatchesInsecure (urlstr : string) (re : option Regexp)
| Command (command : string)
| CommandOutputMatches (command : string) (re : option Regexp)
| Running (name : string)
| Temp (max : Z)
| Module_ (name : string)
| KernelParameter (name : string)
| PHPConfig (variable value : string).

(** The struct type of a check value. *)
Inductive Variant : Type :=
| VPort | VPortTCP | VPortUDP | VInterfaceExists | VUp | VIP4 | VIP6
| VGateway | VGatewayInterface | VHost | VTCP | VUDP | VTCPTimeout
| VUDPTimeout | VRoutingTableDestination | VRoutingTableInterface
| VRoutingTableGateway | VResponseMatches | VResponseMatchesInsecure
| VCommand | VCommandOutputMatches | VRunning | VTemp | VModule
| VKernelParameter | VPHPConfig.

#[global] Instance Variant_eq_dec : EqDecision Variant.
Proof. solve_decision. Defined.

Definition variant_of (chk : Check) : Variant :=
  match chk with
  | Port _ => VPort | PortTCP _ => VPortTCP | PortUDP _ => VPortUDP
  | InterfaceExists _ => VInterfaceExists | Up _ => VUp
  | IP4 _ _ => VIP4 | IP6 _ _ => VIP6
  | Gateway _ => VGateway | GatewayInterface _ => VGatewayInterface
  | Host _ => VHost | TCP _ => VTCP | UDP _ => VUDP
  | TCPTimeout _ _ => VTCPTimeout | UDPTimeout _ _ => VUDPTimeout
  | RoutingTableDestination _ => VRoutingTableDestination
  | RoutingTableInterface _ => VRoutingTableInterface
  | RoutingTableGateway _ => VRoutingTableGateway
  | ResponseMatches _ _ => VResponseMatches
  | ResponseMatchesInsecure _ _ => VResponseMatchesInsecure
  | Command _ => VCommand | CommandOutputMatches _ _ => VCommandOutputMatches
  | Running _ => VRunning | Temp _ => VTemp | Module_ _ => VModule
  | KernelParameter _ => VKernelParameter | PHPConfig _ _ => VPHPConfig
  end.

(** The zero value of each struct type, the receiver [New] is called on. *)
Definition zero (v : Variant) : Check :=
  match v with
  | VPort => Port 0%Z | VPortTCP => PortTCP 0%Z | VPortUDP => PortUDP 0%Z
  | VInterfaceExists => InterfaceExists "" | VUp => Up ""
  | VIP4 => IP4 "" [] | VIP6 => IP6 "" []
  | VGateway => Gateway [] | VGatewayInterface => GatewayInterface ""
  | VHost => Host "" | VTCP => TCP "" | VUDP => UDP ""
  | VTCPTimeout => TCPTimeout "" 0%Z | VUDPTimeout => UDPTimeout "" 0%Z
  | VRoutingTableDestination => RoutingTableDestination []
  | VRoutingTableInterface => RoutingTableInterface ""
  | VRoutingTableGateway => RoutingTableGateway ""
  | VResponseMatches => ResponseMatches "" None
  | VResponseMatchesInsecure => ResponseMatchesInsecure "" None
  | VCommand => Command "" | VCommandOutputMatches => CommandOutputMatches "" None
  | VRunning => Running "" | VTemp => Temp 0%Z | VModule => Module_ ""
  | VKernelParameter => KernelParameter "" | VPHPConfig => PHPConfig "" ""
  end.

Definition all_variants : list Variant :=
  [ VPort; VPortTCP; VPortUDP; VInterfaceExists; VUp; VIP4; VIP6;
    VGateway; VGatewayInterface; VHost; VTCP; VUDP; VTCPTimeout;
    VUDPTimeout; VRoutingTableDestination; VRoutingTableInterface;
    VRoutingTableGateway; VResponseMatches; VResponseMatchesInsecure;
    VCommand; VCommandOutputMatches; VRunning; VTemp; VModule;
    VKernelParameter; VPHPConfig ].

(** *** ID *)

Definition ID (chk : Check) : string :=
  match chk with
  | Port _ => "Port"
  | PortTCP _ => "PortTCP"
  | PortUDP _ => "PortUDP"
  | InterfaceExists _ => "InterfaceExists"
  | Up _ => "Up"
  | IP4 _ _ => "IP4"
  | IP6 _ _ => "IP6"
  | Gateway _ => "Gateway"
  | GatewayInterface _ => "GatewayInterface"
  | Host _ => "Host"
  | TCP _ => "TCP"
  | UDP _ => "UDP"
  | TCPTimeout _ _ => "TCPTimeout"
  | UDPTimeout _ _ => "UDPTimeout"
  | RoutingTableDestination _ => "RoutingTableDestination"
  | RoutingTableInterface _ => "RoutingTableInterface"
  | RoutingTableGateway _ => "RoutingTableDestination"
  | ResponseMatches _ _ => "RoutingTableDestination"
  | ResponseMatchesInsecure _ _ => "RoutingTableDestination"
  | Command _ => "Command"
  | CommandOutputMatches _ _ => "CommandOutputMatches"
  | Running _ => "Running"
  | Temp _ => "Temp"
  | Module_ _ => "Module"
  | KernelParameter _ => "KernelParameter"
  | PHPConfig _ _ => "PHPConfig"
  end.

Section Construction.

Context (L : Lib).

(** [params[i]]; every use in the source comes after the length check. *)
Definition index (params : list string) (i : nat) : string := nth i params "".

(** [noTime], the package variable: the parse of a zero duration, whose
    error is dropped, so that a failed parse leaves the zero value. *)
Definition noTime : Duration :=
  match time_ParseDuration L "0μs" with
  | Some d => d
  | None => 0%Z
  end.

(** [parsePort]: the port and the error, as the Go pair. *)
Definition parsePort (portStr : string) : Z * option string :=
  match strconv.ParseUint portStr 16 with
  | inr err => (0%Z, Some err)
  | inl portInt =>
      if (portInt <? 0)%Z || (65535 <? portInt)%Z
      then (0%Z, None)
      else ((portInt mod 65536)%Z, None)
  end.

(** The glyphs [Temp.New] deletes from its parameter: C, c, U+00B0 and
    U+2103, as their UTF-8 bytes. *)
Definition celsius_glyphs : list string := ["C"; "c"; "°"; "℃"].

Definition strip_celsius (maxStr : string) : string :=
  fold_left Replace_all_with_empty celsius_glyphs maxStr.

(** *** New

    The method has a value receiver: it works on a copy of [chk], sets
    fields on it and returns it, with the error. *)
Definition New (chk : Check) (params : list string) : Check * option error :=
  match chk with
  | Port _ =>
      if negb (length params =? 1)%nat
      then (chk, Some (ParameterLengthError 1 params))
      else match parsePort (index params 0) with
           | (portInt, None) => (Port portInt, None)
           | (_, Some _) => (chk, Some (ParameterTypeError (index params 0) "uint16"))
           end
  | PortTCP _ =>
      if negb (length params =? 1)%nat
      then (chk, Some (ParameterLengthError 1 params))
      else match parsePort (index params 0) with
           | (portInt, None) => (PortTCP portInt, None)
           | (_, Some _) => (chk, Some (ParameterTypeError (index params 0) "uint16"))
           end
  | PortUDP _ =>
      if negb (length params =? 1)%nat
      then (chk, Some (ParameterLengthError 1 params))
      else match parsePort (index params 0) with
           | (portInt, None) => (PortUDP portInt, None)
           | (_, Some _) => (chk, Some (ParameterTypeError (index params 0) "uint16"))
           end
  | InterfaceExists _ =>
      if negb (length params =? 1)%nat
      then (chk, Some (ParameterLengthError 1 params))
      else (InterfaceExists (index params 0), None)
  | Up _ =>
      if negb (length params =? 1)%nat
      then (chk, Some (ParameterLengthError 1 params))
      else (Up (index params 0), None)
  | IP4 _ _ =>
      if negb (length params =? 2)%nat
      then (chk, Some (ParameterLengthError 2 params))
      else if negb (netstatus_ValidIP L (index params 1))
      then (chk, Some (ParameterTypeError (index params 1) "IP"))
      else (IP4 (index params 0) (net_ParseIP L (index params 1)), None)
  | IP6 _ _ =>
      if negb (length params =? 2)%nat
      then (chk, Some (ParameterLengthError 2 params))
      else if negb (netstatus_ValidIP L (index params 1))
      then (chk, Some (ParameterTypeError (index params 1) "IP"))
      else (IP6 (index params 0) (net_ParseIP L (index params 1)), None)
  | Gateway _ =>
      if negb (length params =? 1)%nat
      then (chk, Some (ParameterLengthError 1 params))
      else if negb (netstatus_ValidIP L (index params 0))
      then (chk, Some (ParameterTypeError (index params 0) "IP"))
      else (Gateway (net_ParseIP L (index params 0)), None)
  | GatewayInterface _ =>
      if negb (length params =? 1)%nat
      then (chk, Some (ParameterLengthError 1 params))
      else (GatewayInterface (index params 0), None)
  | Host _ =>
      if negb (length params =? 1)%nat
      then (chk, Some (ParameterLengthError 1 params))
      else (Host (index params 0), None)
  | TCP _ =>
      if negb (length params =? 1)%nat
      then (chk, Some (ParameterLengthError 1 params))
      else (TCP (index params 0), None)
  | UDP _ =>
      if negb (length params =? 1)%nat
      then (chk, Some (ParameterLengthError 1 params))
      else (UDP (index params 0), None)
  | TCPTimeout _ timeout =>
      if negb (length params =? 2)%nat
      then (chk, Some (ParameterLengthError 2 params))
      else match time_ParseDuration L (index params 1) with
           | None => (TCPTimeout (index params 0) timeout,
                      Some (ParameterTypeError (index params 1) "time.Duration"))
           | Some duration => (TCPTimeout (index params 0) duration, None)
           end
  | UDPTimeout _ timeout =>
      if negb (length params =? 2)%nat
      then (chk, Some (ParameterLengthError 2 params))
      else match time_ParseDuration L (index params 1) with
           | None => (UDPTimeout (index params 0) timeout,
                      Some (ParameterTypeError (index params 1) "time.Duration"))
           | Some duration => (UDPTimeout (index params 0) duration, None)
           end
  | RoutingTableDestination _ =>
      if negb (length params =? 1)%nat
      then (chk, Some (ParameterLengthError 1 params))
      else if negb (netstatus_ValidIP L (index params 0))
      then (chk, Some (ParameterTypeError (index params 0) "IP address"))
      else (RoutingTableDestination (net_ParseIP L (index params 0)), None)
  | RoutingTableInterface _ =>
      if negb (length params =? 1)%nat
      then (chk, Some (ParameterLengthError 1 params))
      else (RoutingTableInterface (index params 0), None)
  | RoutingTableGateway _ =>
      if negb (length params =? 1)%nat
      then (chk, Some (ParameterLengthError 1 params))
      else (RoutingTableGateway (index params 0), None)
  | ResponseMatches _ re =>
      if negb (length params =? 2)%nat
      then (chk, Some (ParameterLengthError 2 params))
      else match regexp_Compile L (index params 1) with
           | None => (ResponseMatches (index params 0) re,
                      Some (ParameterTypeError (index params 1) "regexp"))
           | Some re' => (ResponseMatches (index params 0) (Some re'), None)
           end
  | ResponseMatchesInsecure _ re =>
      if negb (length params =? 2)%nat
      then (chk, Some (ParameterLengthError 2 params))
      else match regexp_Compile L (index params 1) with
           | None => (ResponseMatchesInsecure (index params 0) re,
                      Some (ParameterTypeError (index params 1) "regexp"))
           | Some re' => (ResponseMatchesInsecure (index params 0) (Some re'), None)
           end
  | Command _ =>
      if negb (length params =? 1)%nat
      then (chk, Some (ParameterLengthError 1 params))
      else (Command (index params 0), None)
  | CommandOutputMatches _ _ =>
      if negb (length params =? 2)%nat
      then (chk, Some (ParameterLengthError 2 params))
      else match regexp_Compile L (index params 1) with
           | None => (chk, Some (ParameterTypeError (index params 1) "regexp"))
           | Some re' => (CommandOutputMatches (index params 0) (Some re'), None)
           end
  | Running _ =>
      if negb (length params =? 1)%nat
      then (chk, Some (ParameterLengthError 1 params))
      else (Running (index params 0), None)
  | Temp _ =>
      if negb (length params =? 1)%nat
      then (chk, Some (ParameterLengthError 1 params))
      else match strconv.ParseInt (strip_celsius (index params 0)) 16 with
           | inr _ => (chk, Some (ParameterTypeError (index params 0) "+int16"))
           | inl maxInt =>
               if (maxInt <? 0)%Z
               then (chk, Some (ParameterTypeError (index params 0) "+int16"))
               else (Temp maxInt, None)
           end
  | Module_ _ =>
      if negb (length params =? 1)%nat
      then (chk, Some (ParameterLengthError 1 params))
      else (Module_ (index params 0), None)
  | KernelParameter _ =>
      if negb (length params =? 1)%nat
      then (chk, Some (ParameterLengthError 1 params))
      else (KernelParameter (index params 0), None)
  | PHPConfig _ _ =>
      if negb (length params =? 2)%nat
      then (chk, Some (ParameterLengthError 2 params))
      else (PHPConfig (index params 0) (index params 1), None)
  end.

End Construction.

Example celsius_glyph_bytes :
  map String.length celsius_glyphs = [1; 1; 2; 3].
Proof. reflexivity. Qed.

Example strip_celsius_98 : strip_celsius "98°C" = "98".
Proof. reflexivity. Qed.

Example ParseInt_examples :
  (strconv.ParseInt "32767" 16, strconv.ParseInt "32768" 16,
   strconv.ParseInt "-32768" 16, strconv.ParseInt "+7" 16, strconv.ParseInt "-" 16)
  = (inl 32767%Z, inr "value out of range", inl (-32768)%Z, inl 7%Z, inr "invalid syntax").
Proof. reflexivity. Qed.

Example parsePort_examples :
  (parsePort "8080", parsePort "65536", parsePort "+80", parsePort "")
  = ((8080%Z, None), (0%Z, Some "value out of range"),
     (0%Z, Some "invalid syntax"), (0%Z, Some "invalid syntax")).
Proof. reflexivity. Qed.

(** ** Status *)

Section Execution.

Context (L : Lib) (W : World).

Import errutil tabular.

Definition Port_Status (port : Z) : outcome Result :=
  if netstatus_PortOpen W "tcp" port || netstatus_PortOpen W "udp" port
  then Ret Success
  else
    let openPorts := (netstatus_OpenPorts W "tcp" ++ netstatus_OpenPorts W "udp")%list in
    let strPorts := map Sprint_int openPorts in
    Ret (GenericError "Port not open" (Sprint_int port) strPorts).

Definition PortTCP_Status (port : Z) : outcome Result :=
  if netstatus_PortOpen W "tcp" port
  then Ret Success
  else
    let strPorts := map Sprint_int (netstatus_OpenPorts W "tcp") in
    Ret (GenericError "Port not open" (Sprint_int port) strPorts).

Definition PortUDP_Status (port : Z) : outcome Result :=
  if netstatus_PortOpen W "udp" port
  then Ret Success
  else
    let strPorts := map Sprint_int (netstatus_OpenPorts W "udp") in
    Ret (GenericError "Port not open" (Sprint_int port) strPorts).

Definition InterfaceExists_Status (name : string) : outcome Result :=
  let interfaces := map Name (netstatus_GetInterfaces W) in
  if existsb (fun iface => String.eqb iface name) interfaces
  then Ret Success
  else Ret (GenericError "Interface does not exist" name interfaces).

Definition Up_Status (name : string) : outcome Result :=
  let upInterfaces :=
    map Name
      (filter (fun iface => N.land (Flags iface) FlagUp ≠ 0%N)
              (netstatus_GetInterfaces W)) in
  if StrIn name upInterfaces
  then Ret Success
  else Ret (GenericError "Interface is not up" name upInterfaces).

(** [ipCheck]: [version] is a parameter of the function. *)
Definition ipCheck (name : string) (address : IP) (version : Z) : outcome Result :=
  let ips := netstatus_InterfaceIPs W name in
  if existsb (fun ip => ip_Equal L ip address) ips
  then Ret Success
  else Ret (GenericError "Interface does not have IP"
              (ip_String L address) (map (ip_String L) ips)).

(** [RoutingTableColumn]: the table of [route -n], without its first
    line, read by header name; an empty table ends the run. *)
Definition RoutingTableColumn (name : string) : outcome (list string) :=
  out ← chkutil_CommandOutput W ["route"; "-n"];
  let table := tabular_ProbabalisticSplit L out in
  if (length table <? 1)%nat
  then Fatal "Routing table was not available or not properly parsed"
  else
    let finalTable := tl table in
    Ret (tabular_GetColumnByHeader L name finalTable).

Definition RoutingTableMatch (col str : string) : outcome Result :=
  column ← RoutingTableColumn col;
  if StrIn str column
  then Ret Success
  else Ret (GenericError "Not found in routing table" str column).

(** The loop of [getGatewayAddress]. *)
Fixpoint firstNonZeroGateway (ips : list string) : string :=
  match ips with
  | [] => "0.0.0.0"
  | ip :: rest =>
      if negb (String.eqb ip "0.0.0.0") then ip else firstNonZeroGateway rest
  end.

Definition getGatewayAddress : outcome string :=
  ips ← RoutingTableColumn "Gateway";
  Ret (firstNonZeroGateway ips).

Definition Gateway_Status (ip : IP) : outcome Result :=
  GatewayIP ← getGatewayAddress;
  if String.eqb (ip_String L ip) GatewayIP
  then Ret Success
  else Ret (GenericError "Gateway does not have address" (ip_String L ip) [GatewayIP]).

(** The loop of [getGatewayInterface], [i] being the index reached. *)
Fixpoint gatewayInterfaceFrom (i : nat) (ips names : list string) : outcome string :=
  match ips with
  | [] => Ret ""
  | ip :: rest =>
      if negb (String.eqb ip "0.0.0.0")
      then
        _ ← IndexError "Fewer names in kernel routing table than IPs" i names;
        match names !! i with
        | Some iface => Ret iface
        | None => Panic "index out of range"
        end
      else gatewayInterfaceFrom (S i) rest names
  end.

Definition getGatewayInterface : outcome string :=
  ips ← RoutingTableColumn "Gateway";
  names ← RoutingTableColumn "Iface";
  gatewayInterfaceFrom 0 ips names.

Definition GatewayInterface_Status (name : string) : outcome Result :=
  iface ← getGatewayInterface;
  if String.eqb name iface
  then Ret Success
  else Ret (GenericError "Default Gateway does not operate on interface" name [iface]).

Definition Host_Status (hostname : string) : outcome Result :=
  if netstatus_Resolvable W hostname
  then Ret Success
  else Ret (mkResult 1 ("Host cannot be resolved: " +:+ hostname) None).

Definition connectionCheck (host protocol : string) (timeout : Duration)
  : outcome Result :=
  if netstatus_CanConnect W host protocol timeout
  then Ret Success
  else Ret (mkResult 1
              ("Could not connect over " +:+ protocol +:+ " to host: " +:+ host) None).

(** [ResponseMatchesGeneral]; a nil [re] panics at [re.Match]. *)
Definition ResponseMatchesGeneral (urlstr : string) (re : option Regexp) (secure : bool)
  : outcome Result :=
  body ← chkutil_URLToBytes W urlstr secure;
  match re with
  | None => Panic "nil pointer dereference"
  | Some re =>
      if regexp_Match L re body
      then Ret Success
      else Ret (GenericError "Response didn't match regexp" re [body])
  end.

Definition Command_Status (command : string) : outcome Result :=
  let cmd := ["bash"; "-c"; command] in
  match cmd_Start W cmd with
  | Some err =>
      if Contains err "not found in $PATH"
      then Ret (mkResult 1 ("Executable not found: " +:+ command) None)
      else Ret (mkResult 1 "" (Some (errorString err)))
  | None =>
      match cmd_Wait W cmd with
      | WaitOk => Ret Success
      | waited =>
          let exitCode :=
            match waited with
            | WaitExitError (Some status) => status
            | _ => 0%Z
            end in
          let exitCode := if (exitCode =? 0)%Z then 1%Z else exitCode in
          let out := cmd_CombinedOutput_again W cmd in
          let exitMessage :=
            "Command exited with non-zero exit code:"
            +:+ newline +:+ tab +:+ "Command: " +:+ command
            +:+ newline +:+ tab +:+ "Exit code: " +:+ Sprint_int exitCode
            +:+ newline +:+ tab +:+ "Output: " +:+ out in
          Ret (mkResult 1 exitMessage None)
      end
  end.

Definition CommandOutputMatches_Status (command : string) (re : option Regexp)
  : outcome Result :=
  let cmd := ["bash"; "-c"; command] in
  let '(out, err) := cmd_CombinedOutput W cmd in
  _ ← match err with
      | Some _ => ExecError cmd out err
      | None => Ret tt
      end;
  match re with
  | None => Panic "nil pointer dereference"
  | Some re =>
      if regexp_Match L re out
      then Ret Success
      else Ret (GenericError "Command output did not match regexp" re [out])
  end.

Definition Running_Status (name : string) : outcome Result :=
  Commands ← chkutil_CommandColumnNoHeader W 10 ["ps"; "aux"];
  let filtered := filter (fun cmd => negb (Contains cmd "distributive")) Commands in
  if StrIn name filtered
  then Ret Success
  else Ret (GenericError "Process not Running" name filtered).

(** The pattern of [Temp.Status]. *)
Definition restr : Regexp :=
  "Core\s\d+:\s+[\+\-](?P<Temp>\d+)\.*\d*(°|\s)C".

(** The body of the loop of [allCoreTemps] on one matching line. *)
Definition lineTemp (line : string) : outcome Z :=
  let matchDict := chkutil_SubmatchMap L restr line in
  match matchDict !! "Temp" with
  | None => Fatal "Couldn't find any Temperatures in `sensors` output"
  | Some temp =>
      match strconv.ParseInt temp 64 with
      | inr _ => Fatal "Couldn't parse integer from `sensors` output"
      | inl TempInt64 => Ret TempInt64
      end
  end.

Fixpoint collectTemps (lines : list string) : outcome (list Z) :=
  match lines with
  | [] => Ret []
  | line :: rest =>
      if regexp_Match L restr line
      then
        t ← lineTemp line;
        Temps ← collectTemps rest;
        Ret (t :: Temps)
      else collectTemps rest
  end.

Definition allCoreTemps : outcome (list Z) :=
  let cmd := ["sensors"] in
  let '(outstr, err) := cmd_CombinedOutput W cmd in
  _ ← ExecError cmd outstr err;
  collectTemps (regexp_Split L "\n+" outstr).

Definition getCoreTemp (core : nat) : outcome Z :=
  Temps ← allCoreTemps;
  _ ← IndexError "No such core available" core Temps;
  match Temps !! core with
  | Some t => Ret t
  | None => Panic "index out of range"
  end.

Definition Temp_Status (max : Z) : outcome Result :=
  Temp ← getCoreTemp 0;
  if (Temp <? max)%Z
  then Ret Success
  else Ret (GenericError "Core Temp exceeds defined maximum"
              (Sprint_int max) [Sprint_int Temp]).

Definition Module_Status (name : string) : outcome Result :=
  Modules ← chkutil_CommandColumnNoHeader W 0 ["/sbin/lsmod"];
  if StrIn name Modules
  then Ret Success
  else Ret (GenericError "Module is not loaded" name Modules).

Definition parameterSet (name : string) : outcome bool :=
  let cmd := ["/sbin/sysctl"; "-q"; "-n"; name] in
  let '(out, err) := cmd_CombinedOutput W cmd in
  match err with
  | Some text =>
      if Contains text "255"
      then Ret false
      else (_ ← ExecError cmd out err; Ret true)
  | None => Ret true
  end.

Definition KernelParameter_Status (name : string) : outcome Result :=
  set ← parameterSet name;
  if set : bool
  then Ret Success
  else Ret (mkResult 1 ("Kernel parameter not set: " +:+ name) None).

Definition getPHPVariable (name : string) : outcome string :=
  let quote := fun str => dquote +:+ str +:+ dquote in
  let echo := "echo get_cfg_var(" +:+ quote name +:+ ");" in
  let cmd := ["php"; "-r"; echo] in
  let '(out, err) := cmd_CombinedOutput W cmd in
  _ ← match err with
      | Some _ => ExecError cmd out err
      | None => Ret tt
      end;
  Ret out.

Definition PHPConfig_Status (variable value : string) : outcome Result :=
  actualValue ← getPHPVariable variable;
  if String.eqb actualValue value
  then Ret Success
  else if String.eqb actualValue ""
  then Ret (GenericError "PHP configuration variable not set" value [actualValue])
  else Ret (GenericError "PHP variable did not match expected value" value [actualValue]).

(** The method [Status] of each struct type. *)
Definition Status (chk : Check) : outcome Result :=
  match chk with
  | Port port => Port_Status port
  | PortTCP port => PortTCP_Status port
  | PortUDP port => PortUDP_Status port
  | InterfaceExists name => InterfaceExists_Status name
  | Up name => Up_Status name
  | IP4 name ip => ipCheck name ip 4
  | IP6 name ip => ipCheck name ip 6
  | Gateway ip => Gateway_Status ip
  | GatewayInterface name => GatewayInterface_Status name
  | Host hostname => Host_Status hostname
  | TCP name => connectionCheck name "TCP" (noTime L)
  | UDP name => connectionCheck name "UDP" (noTime L)
  | TCPTimeout name timeout => connectionCheck name "TCP" timeout
  | UDPTimeout name timeout => connectionCheck name "UDP" timeout
  | RoutingTableDestination ip =>
      RoutingTableMatch "Destination" (ip_String L (ip_To4 L ip))
  | RoutingTableInterface name => RoutingTableMatch "Iface" name
  | RoutingTableGateway name => RoutingTableMatch "Gateway" name
  | ResponseMatches urlstr re => ResponseMatchesGeneral urlstr re true
  | ResponseMatchesInsecure urlstr re => ResponseMatchesGeneral urlstr re false
  | Command command => Command_Status command
  | CommandOutputMatches command re => CommandOutputMatches_Status command re
  | Running name => Running_Status name
  | Temp max => Temp_Status max
  | Module_ name => Module_Status name
  | KernelParameter name => KernelParameter_Status name
  | PHPConfig variable value => PHPConfig_Status variable value
  end.

End Execution.

(** ** Declared parameters of each struct type

    The parameters that the comment above each struct type declares, in
    order, with their types; where the comment declares none (Host, TCP, UDP
    and the two timeouts) the fields of the struct. A URL is declared as a
    string. *)

Inductive ptype : Type :=
| TString | TPort | TIP | TDuration | TRegexp | TTemp.

Definition signature (v : Variant) : list ptype :=
  match v with
  | VPort | VPortTCP | VPortUDP => [TPort]
  | VInterfaceExists | VUp | VGatewayInterface | VHost | VTCP | VUDP => [TString]
  | VIP4 | VIP6 => [TString; TIP]
  | VGateway | VRoutingTableDestination | VRoutingTableGateway => [TIP]
  | VTCPTimeout | VUDPTimeout => [TString; TDuration]
  | VRoutingTableInterface => [TString]
  | VResponseMatches | VResponseMatchesInsecure | VCommandOutputMatches =>
      [TString; TRegexp]
  | VCommand | VRunning | VModule | VKernelParameter => [TString]
  | VTemp => [TTemp]
  | VPHPConfig => [TString; TString]
  end.

Definition arity (v : Variant) : nat := length (signature v).



(** The fields of a constructed check hold values of their types, taken from
    the parameters: a port within uint16, a parsed address of a valid
    parameter, a compiled pattern, a threshold within the non-negative
    int16, a parsed duration, and the raw strings themselves. *)
Definition typed_from (L : Lib) (chk : Check) (params : list string) : Prop :=
  match chk with
  | Port port | PortTCP port | PortUDP port =>
      (0 <= port < 65536)%Z ∧ strconv.ParseUint (index params 0) 16 = inl port
  | InterfaceExists name | Up name | GatewayInterface name | Host name
  | TCP name | UDP name | RoutingTableInterface name | RoutingTableGateway name
  | Command name | Running name | Module_ name | KernelParameter name =>
      name = index params 0
  | IP4 name ip | IP6 name ip =>
      name = index params 0 ∧ ip = net_ParseIP L (index params 1)
  | Gateway ip | RoutingTableDestination ip =>
      ip = net_ParseIP L (index params 0)
  | TCPTimeout name timeout | UDPTimeout name timeout =>
      name = index params 0 ∧ time_ParseDuration L (index params 1) = Some timeout
  | ResponseMatches urlstr re | ResponseMatchesInsecure urlstr re
  | CommandOutputMatches urlstr re =>
      urlstr = index params 0 ∧ re ≠ None ∧ re = regexp_Compile L (index params 1)
  | Temp max =>
      (0 <= max < 32768)%Z ∧
      strconv.ParseInt (strip_celsius (index params 0)) 16 = inl max
  | PHPConfig variable value =>
      variable = index params 0 ∧ value = index params 1
  end.

(** ** A small library and a small host, to run the checks on *)

Module Fixture.

Definition ip_of_text (s : string) : IP :=
  map Ascii.byte_of_ascii (list_ascii_of_string s).

Definition text_of_ip (ip : IP) : string :=
  string_of_list_ascii (map Ascii.ascii_of_byte ip).

Definition known_addresses : list string :=
  ["0.0.0.0"; "10.0.0.1"; "192.168.0.1"].

Definition column_index (name : string) (header : list string) : option nat :=
  fst <$> list_find (String.eqb name) header.

Definition lib : Lib := {|
  net_ParseIP := fun s =>
    if existsb (String.eqb s) known_addresses then ip_of_text s else [];
  ip_String := text_of_ip;
  ip_Equal := fun a b => String.eqb (text_of_ip a) (text_of_ip b);
  ip_To4 := fun ip => ip;
  netstatus_ValidIP := fun s => existsb (String.eqb s) known_addresses;
  time_ParseDuration := fun s =>
    if String.eqb s "5s" then Some 5000000000%Z
    else if String.eqb s "0μs" then Some 0%Z else None;
  regexp_Compile := fun s => if Contains s "(" then None else Some s;
  regexp_Match := fun re s => Contains s (if String.eqb re restr then "Core " else re);
  regexp_Split := fun _ s => [s];
  chkutil_SubmatchMap := fun _ line =>
    if Contains line "+45.0" then {[ "Temp" := "45" ]} else ∅;
  tabular_ProbabalisticSplit := fun out =>
    if String.eqb out "no gateway"
    then [ ["Kernel IP routing table"];
           ["Destination"; "Gateway"; "Iface"];
           ["10.0.0.0"; "0.0.0.0"; "eth1"] ]
    else [ ["Kernel IP routing table"];
           ["Destination"; "Gateway"; "Iface"];
           ["10.0.0.0"; "0.0.0.0"; "eth1"];
           ["0.0.0.0"; "192.168.0.1"; "eth0"];
           ["0.0.0.0"; "10.0.0.1"; "eth1"] ];
  tabular_GetColumnByHeader := fun name table =>
    match table with
    | [] => []
    | header :: rows =>
        match column_index name header with
        | Some i => map (fun row => nth i row "") rows
        | None => []
        end
    end
|}.

(** A host with one listening TCP port, a default gateway, a few
    processes, and a shell that runs. *)
Definition host : World := {|
  netstatus_PortOpen := fun proto port =>
    String.eqb proto "tcp" && (port =? 22)%Z;
  netstatus_OpenPorts := fun proto => if String.eqb proto "tcp" then [22%Z] else [];
  netstatus_GetInterfaces := [mkInterface "lo" 73; mkInterface "eth0" 4163];
  netstatus_InterfaceIPs := fun name =>
    if String.eqb name "eth0" then [ip_of_text "192.168.0.1"] else [];
  netstatus_Resolvable := fun h => String.eqb h "eff.org";
  netstatus_CanConnect := fun h _ _ => String.eqb h "eff.org:80";
  chkutil_CommandOutput := fun _ => Ret "route";
  chkutil_URLToBytes := fun _ _ => Ret "<html></html>";
  chkutil_CommandColumnNoHeader := fun col cmd =>
    if (col =? 10)%nat
    then Ret ["/sbin/init"; "nginx: master process /usr/sbin/nginx";
              "distributive -f nginx.json"; "sshd"]
    else Ret ["hid"; "drm"];
  cmd_Start := fun _ => None;
  cmd_Wait := fun _ => WaitOk;
  cmd_CombinedOutput := fun cmd =>
    if bool_decide (cmd = ["sensors"])
    then ("Core 0:        +45.0°C  (high = +80.0°C, crit = +100.0°C)", None)
    else ("", None);
  cmd_CombinedOutput_again := fun _ => ""
|}.

(** The same host when the shell cannot be started. *)
Definition host_no_shell : World := {|
  netstatus_PortOpen := netstatus_PortOpen host;
  netstatus_OpenPorts := netstatus_OpenPorts host;
  netstatus_GetInterfaces := netstatus_GetInterfaces host;
  netstatus_InterfaceIPs := netstatus_InterfaceIPs host;
  netstatus_Resolvable := netstatus_Resolvable host;
  netstatus_CanConnect := netstatus_CanConnect host;
  chkutil_CommandOutput := chkutil_CommandOutput host;
  chkutil_URLToBytes := chkutil_URLToBytes host;
  chkutil_CommandColumnNoHeader := chkutil_CommandColumnNoHeader host;
  cmd_Start := fun _ => Some "fork/exec /usr/bin/bash: permission denied";
  cmd_Wait := cmd_Wait host;
  cmd_CombinedOutput := cmd_CombinedOutput host;
  cmd_CombinedOutput_again := cmd_CombinedOutput_again host
|}.

(** The same host without a default gateway. *)
Definition host_no_gateway : World := {|
  netstatus_PortOpen := netstatus_PortOpen host;
  netstatus_OpenPorts := netstatus_OpenPorts host;
  netstatus_GetInterfaces := netstatus_GetInterfaces host;
  netstatus_InterfaceIPs := netstatus_InterfaceIPs host;
  netstatus_Resolvable := netstatus_Resolvable host;
  netstatus_CanConnect := netstatus_CanConnect host;
  chkutil_CommandOutput := fun _ => Ret "no gateway";
  chkutil_URLToBytes := chkutil_URLToBytes host;
  chkutil_CommandColumnNoHeader := chkutil_CommandColumnNoHeader host;
  cmd_Start := cmd_Start host;
  cmd_Wait := cmd_Wait host;
  cmd_CombinedOutput := cmd_CombinedOutput host;
  cmd_CombinedOutput_again := cmd_CombinedOutput_again host
|}.


End Fixture.

Example fixture_gateway_column :
  RoutingTableColumn Fixture.lib Fixture.host "Gateway"
  = Ret ["0.0.0.0"; "192.168.0.1"; "10.0.0.1"].
Proof. reflexivity. Qed.

Example fixture_port_22 :
  Status Fixture.lib Fixture.host (Port 22) = Ret errutil.Success.
Proof. reflexivity. Qed.

Example fixture_temp :
  Status Fixture.lib Fixture.host (Temp 50) = Ret errutil.Success.
Proof. vm_compute. reflexivity. Qed.

(** ** Results of the helper constructors *)

Definition well_formed (r : Result) : Prop :=
  code r = 0%Z ↔ message r = "" ∧ cause r = None.

Lemma append_nonempty_l (a b : string) : a ≠ "" → a +:+ b ≠ "".
Proof. destruct a; [congruence | discriminate]. Qed.

Lemma Success_well_formed : well_formed errutil.Success.
Proof. unfold well_formed; simpl; tauto. Qed.

Lemma GenericError_code msg specified actual :
  code (errutil.GenericError msg specified actual) = 1%Z.
Proof. reflexivity. Qed.

Lemma GenericError_message msg specified actual :
  message (errutil.GenericError msg specified actual) ≠ "".
Proof. unfold errutil.GenericError; simpl. destruct msg; discriminate. Qed.

Lemma GenericError_well_formed msg specified actual :
  well_formed (errutil.GenericError msg specified actual).
Proof.
  unfold well_formed. split.
  - rewrite GenericError_code. discriminate.
  - intros [Hm _]. destruct (GenericError_message _ _ _ Hm).
Qed.

Lemma failure_with_message_well_formed (msg : string) :
  msg ≠ "" → well_formed (mkResult 1 msg None).
Proof. intros Hm. unfold well_formed; simpl. split; [discriminate | tauto]. Qed.

(** The bind of [outcome], inverted. *)
Lemma bind_Ret {A B} (m : outcome A) (f : A → outcome B) (b : B) :
  m ≫= f = Ret b → ∃ a, m = Ret a ∧ f a = Ret b.
Proof. destruct m; simpl; intros H; try discriminate. eauto. Qed.

Ltac invert_outcome :=
  repeat match goal with
    | H : Ret _ = Ret _ |- _ => inversion H; subst; clear H
    | H : Fatal _ = Ret _ |- _ => discriminate H
    | H : Panic _ = Ret _ |- _ => discriminate H
    | H : _ ≫= _ = Ret _ |- _ =>
        let a := fresh "a" in
        let Ha := fresh "Ha" in
        apply bind_Ret in H; destruct H as (a & Ha & H)
    | H : (if ?b then _ else _) = Ret _ |- _ => destruct b eqn:?
    | H : match ?x with _ => _ end = Ret _ |- _ => destruct x eqn:?
    end.

(** A failing result with a message, or the one failure without. *)
Definition diagnosed (W : World) (chk : Check) (r : Result) : Prop :=
  message r ≠ "" ∨
  ∃ command err,
    chk = Command command ∧
    cmd_Start W ["bash"; "-c"; command] = Some err ∧
    Contains err "not found in $PATH" = false ∧
    r = mkResult 1 "" (Some (errorString err)).

Lemma Status_cases (L : Lib) (W : World) (chk : Check) (r : Result) :
  Status L W chk = Ret r →
  r = errutil.Success
  ∨ (∃ msg specified actual, r = errutil.GenericError msg specified actual)
  ∨ (∃ msg, msg ≠ "" ∧ r = mkResult 1 msg None)
  ∨ (∃ command err,
        chk = Command command ∧
        cmd_Start W ["bash"; "-c"; command] = Some err ∧
        Contains err "not found in $PATH" = false ∧
        r = mkResult 1 "" (Some (errorString err))).
Proof.
  intros H.
  destruct chk; simpl in H;
    unfold Port_Status, PortTCP_Status, PortUDP_Status, InterfaceExists_Status,
      Up_Status, ipCheck, Gateway_Status, GatewayInterface_Status, Host_Status,
      connectionCheck, RoutingTableMatch, ResponseMatchesGeneral, Command_Status,
      CommandOutputMatches_Status, Running_Status, Temp_Status, Module_Status,
      KernelParameter_Status, PHPConfig_Status in H;
    invert_outcome;
    try (left; reflexivity);
    try (right; left; eauto; fail);
    try (right; right; left; eexists; split; [| reflexivity]; discriminate).
  all: right; right; right; eauto 10.
Qed.

(** ** Theorems *)

(** C1 (as amended). For every check and every world, a result that
    [Status] returns has code 0 exactly when its message is empty and its
    error is nil; and a failing result carries a non-empty message, except
    the one that [Command] returns when the shell could not be started for
    a reason other than a missing executable: that one carries the start
    error itself and an empty message. *)
Theorem Status_result_invariant (L : Lib) (W : World) (chk : Check) (r : Result) :
  Status L W chk = Ret r →
  (code r = 0%Z ↔ message r = "" ∧ cause r = None) ∧
  (code r ≠ 0%Z → diagnosed W chk r).
Proof.
  intros H. apply Status_cases in H.
  destruct H as [-> | [(msg & sp & ac & ->) | [(msg & Hm & ->) | (c & e & -> & Hs & Hc & ->)]]].
  - split; [apply Success_well_formed | intros Hc; simpl in Hc; congruence].
  - split; [apply GenericError_well_formed |].
    intros _. left. apply GenericError_message.
  - split; [by apply failure_with_message_well_formed |].
    intros _. left. exact Hm.
  - split.
    + simpl. split; [discriminate | intros [_ Hn]; discriminate].
    + intros _. right. eauto 10.
Qed.

Lemma Status_result_invariant_witness :
  Status Fixture.lib Fixture.host (Host "nowhere.invalid")
    = Ret (mkResult 1 "Host cannot be resolved: nowhere.invalid" None)
  ∧ diagnosed Fixture.host (Host "nowhere.invalid")
      (mkResult 1 "Host cannot be resolved: nowhere.invalid" None).
Proof.
  split; [reflexivity |].
  apply (Status_result_invariant Fixture.lib Fixture.host
           (Host "nowhere.invalid")
           (mkResult 1 "Host cannot be resolved: nowhere.invalid" None)).
  - reflexivity.
  - simpl. discriminate.
Defined.

(** C1, as stated, fails: when the shell cannot be started, [Command]
    returns code 1 with an empty message. *)
Lemma Command_start_error_has_no_message :
  Status Fixture.lib Fixture.host_no_shell (Command "true")
    = Ret (mkResult 1 ""
             (Some (errorString "fork/exec /usr/bin/bash: permission denied")))
  ∧ ¬ (∀ (L : Lib) (W : World) (chk : Check) (r : Result),
          Status L W chk = Ret r → code r ≠ 0%Z → message r ≠ "").
Proof.
  split; [reflexivity |].
  intros Hall.
  apply (Hall Fixture.lib Fixture.host_no_shell (Command "true")
           (mkResult 1 ""
              (Some (errorString "fork/exec /usr/bin/bash: permission denied")))).
  - reflexivity.
  - simpl. discriminate.
  - reflexivity.
Qed.

(** C2. The identifiers are not unique: [RoutingTableGateway],
    [ResponseMatches] and [ResponseMatchesInsecure] are three struct types
    different from [RoutingTableDestination], and the [ID] of each returns the
    name of [RoutingTableDestination]. *)
Theorem ID_shared_by_four_variants :
  let ids := map (fun v => ID (zero v))
               [VRoutingTableDestination; VRoutingTableGateway;
                VResponseMatches; VResponseMatchesInsecure] in
  ids = ["RoutingTableDestination"; "RoutingTableDestination";
         "RoutingTableDestination"; "RoutingTableDestination"]
  ∧ ¬ (∀ c1 c2 : Check, variant_of c1 ≠ variant_of c2 → ID c1 ≠ ID c2).
Proof.
  split; [reflexivity |].
  intros Huniq.
  apply (Huniq (RoutingTableGateway "") (RoutingTableDestination [])).
  - discriminate.
  - reflexivity.
Qed.

(** Apart from those three, the identifiers are pairwise different. *)
Lemma ID_unique_elsewhere (c1 c2 : Check) :
  variant_of c1 ∉ [VRoutingTableGateway; VResponseMatches; VResponseMatchesInsecure] →
  variant_of c2 ∉ [VRoutingTableGateway; VResponseMatches; VResponseMatchesInsecure] →
  ID c1 = ID c2 → variant_of c1 = variant_of c2.
Proof.
  intros H1 H2 Hid.
  destruct c1; simpl in H1; try (exfalso; apply H1; set_solver);
    destruct c2; simpl in H2; try (exfalso; apply H2; set_solver);
    simpl in Hid; try discriminate Hid; reflexivity.
Qed.

(** The identifier depends on the struct type only. *)
Lemma ID_of_variant (chk : Check) : ID chk = ID (zero (variant_of chk)).
Proof. destruct chk; reflexivity. Qed.

(** C4. For every port P and every host, each of the three port checks
    returns a result; [Port] passes exactly when P is open on TCP or on UDP,
    [PortTCP] exactly when P is open on TCP, [PortUDP] exactly when P is open
    on UDP. So with a TCP listener on P, [Port] and [PortTCP] pass, and
    [PortUDP] passes only if P is open on UDP as well. *)
Theorem Port_checks_pass_iff_open (L : Lib) (W : World) (P : Z) :
  ∃ r rT rU,
    Status L W (Port P) = Ret r ∧
    Status L W (PortTCP P) = Ret rT ∧
    Status L W (PortUDP P) = Ret rU ∧
    (code r = 0%Z ↔
       netstatus_PortOpen W "tcp" P = true ∨ netstatus_PortOpen W "udp" P = true) ∧
    (code rT = 0%Z ↔ netstatus_PortOpen W "tcp" P = true) ∧
    (code rU = 0%Z ↔ netstatus_PortOpen W "udp" P = true) ∧
    (netstatus_PortOpen W "tcp" P = true →
       r = errutil.Success ∧ rT = errutil.Success ∧
       (netstatus_PortOpen W "udp" P = false → code rU ≠ 0%Z)).
Proof.
  simpl. unfold Port_Status, PortTCP_Status, PortUDP_Status.
  destruct (netstatus_PortOpen W "tcp" P) eqn:Ht,
           (netstatus_PortOpen W "udp" P) eqn:Hu; simpl;
    do 3 eexists; (split; [reflexivity |]); (split; [reflexivity |]);
    (split; [reflexivity |]); simpl; intuition congruence.
Qed.

(** C7. The version argument of [ipCheck] has no effect, and so the IP4
    check and the IP6 check built from the same parameters are built alike
    (same error, same fields) and return the same outcome on every host. *)
Theorem ip_version_has_no_effect (L : Lib) (W : World) :
  (∀ (name : string) (address : IP) (v1 v2 : Z),
      ipCheck L W name address v1 = ipCheck L W name address v2) ∧
  (∀ (name : string) (address : IP),
      Status L W (IP4 name address) = Status L W (IP6 name address)) ∧
  (∀ (params : list string),
      snd (New L (zero VIP4) params) = snd (New L (zero VIP6) params) ∧
      Status L W (fst (New L (zero VIP4) params))
        = Status L W (fst (New L (zero VIP6) params))).
Proof.
  split; [reflexivity |]. split; [reflexivity |].
  intros params. simpl.
  destruct (negb (length params =? 2)%nat); [split; reflexivity |].
  destruct (negb (netstatus_ValidIP L (index params 1))); split; reflexivity.
Qed.

(** ** Facts on the parsers *)

Lemma digits_value_nonneg (s : string) (acc v : Z) :
  (0 <= acc)%Z → strconv.digits_value acc s = Some v → (0 <= v)%Z.
Proof.
  revert acc. induction s as [| c s IH]; simpl; intros acc Hacc H.
  - congruence.
  - destruct (strconv.is_digit c) eqn:Hd; [| discriminate].
    refine (IH _ _ H).
    unfold strconv.is_digit in Hd.
    apply andb_true_iff in Hd as [Hlo _]. apply Nat.leb_le in Hlo. lia.
Qed.

Lemma ParseUint_range (s : string) (bitSize v : Z) :
  strconv.ParseUint s bitSize = inl v → (0 <= v < 2 ^ bitSize)%Z.
Proof.
  unfold strconv.ParseUint. destruct s as [| c s]; [discriminate |].
  destruct (strconv.digits_value 0 (String c s)) as [u |] eqn:Hd; [| discriminate].
  destruct (u <? 2 ^ bitSize)%Z eqn:Hlt; [| discriminate].
  intros [= <-]. split.
  - exact (digits_value_nonneg _ 0 u (Z.le_refl 0) Hd).
  - by apply Z.ltb_lt.
Qed.

Lemma ParseInt_range (s : string) (bitSize v : Z) :
  (0 < bitSize)%Z →
  strconv.ParseInt s bitSize = inl v →
  (- 2 ^ (bitSize - 1) <= v < 2 ^ (bitSize - 1))%Z.
Proof.
  intros Hbits.
  assert (0 < 2 ^ (bitSize - 1))%Z by (apply Z.pow_pos_nonneg; lia).
  unfold strconv.ParseInt. destruct s as [| c s]; [discriminate |].
  cbv zeta.
  match goal with
  | |- context [if ?b then s else String c s] =>
      destruct (if b then s else String c s) as [| c' s'] eqn:Hbody
  end; [discriminate |].
  destruct (strconv.digits_value 0 (String c' s')) as [u |] eqn:Hd; [| discriminate].
  assert (0 <= u)%Z by exact (digits_value_nonneg _ 0 u (Z.le_refl 0) Hd).
  destruct (Ascii.eqb c "-").
  - destruct (u <=? 2 ^ (bitSize - 1))%Z eqn:Hle; [| discriminate].
    apply Z.leb_le in Hle. intros [= <-]. lia.
  - destruct (u <? 2 ^ (bitSize - 1))%Z eqn:Hlt; [| discriminate].
    apply Z.ltb_lt in Hlt. intros [= <-]. lia.
Qed.

(** [parsePort] never takes its range branch: the port is the parsed value
    and the error is the parser's. *)
Lemma parsePort_ParseUint (s : string) :
  parsePort s =
    match strconv.ParseUint s 16 with
    | inl v => (v, None)
    | inr err => (0%Z, Some err)
    end.
Proof.
  unfold parsePort. destruct (strconv.ParseUint s 16) as [v | e] eqn:Hp; [| reflexivity].
  apply ParseUint_range in Hp. change (2 ^ 16)%Z with 65536%Z in Hp.
  replace ((v <? 0)%Z || (65535 <? v)%Z) with false.
  - by rewrite Z.mod_small.
  - symmetry. apply orb_false_iff. split; [apply Z.ltb_ge | apply Z.ltb_ge]; lia.
Qed.

(** [New] keeps the struct type of its receiver. *)
Lemma New_variant (L : Lib) (chk : Check) (params : list string) :
  variant_of (fst (New L chk params)) = variant_of chk.
Proof.
  destruct chk; simpl;
    repeat match goal with
      | |- context [if ?b then _ else _] => destruct b
      | |- context [match ?x with _ => _ end] => destruct x
      end; reflexivity.
Qed.

Lemma New_ID (L : Lib) (chk : Check) (params : list string) :
  ID (fst (New L chk params)) = ID chk.
Proof.
  rewrite (ID_of_variant (fst _)), New_variant. symmetry. apply ID_of_variant.
Qed.

(** C3. [RoutingTableGateway.New] does not validate: its parameter is
    declared an IP address, and it takes any string, returning the check and
    a nil error, where the sibling [RoutingTableDestination.New] and
    [Gateway.New] return a [ParameterTypeError] for a string that is no IP
    address. So it is not true that every parameter declared an IP address
    and found invalid yields a type error. *)
Theorem RoutingTableGateway_New_skips_validation :
  (∀ (L : Lib) (p : string),
      New L (zero VRoutingTableGateway) [p] = (RoutingTableGateway p, None))
  ∧ (∀ (L : Lib) (p : string),
      netstatus_ValidIP L p = false →
      New L (zero VRoutingTableDestination) [p]
        = (zero VRoutingTableDestination, Some (ParameterTypeError p "IP address"))
      ∧ New L (zero VGateway) [p]
        = (zero VGateway, Some (ParameterTypeError p "IP")))
  ∧ ¬ (∀ (L : Lib) (chk : Check) (params : list string) (i : nat) (p : string),
          length params = arity (variant_of chk) →
          signature (variant_of chk) !! i = Some TIP →
          params !! i = Some p →
          netstatus_ValidIP L p = false →
          ∃ ty, snd (New L chk params) = Some (ParameterTypeError p ty)).
Proof.
  split; [reflexivity |]. split.
  - intros L p Hp. simpl. unfold index. simpl. by rewrite Hp.
  - intros Hall.
    destruct (Hall Fixture.lib (zero VRoutingTableGateway) ["not an IP address"]
                0%nat "not an IP address" eq_refl eq_refl eq_refl eq_refl) as [ty Hty].
    discriminate Hty.
Qed.

Lemma RoutingTableGateway_New_skips_validation_witness :
  New Fixture.lib (zero VRoutingTableGateway) ["not an IP address"]
    = (RoutingTableGateway "not an IP address", None)
  ∧ New Fixture.lib (zero VRoutingTableDestination) ["not an IP address"]
    = (zero VRoutingTableDestination,
       Some (ParameterTypeError "not an IP address" "IP address")).
Proof.
  destruct RoutingTableGateway_New_skips_validation as (Hgw & Hsib & _).
  split.
  - exact (Hgw Fixture.lib "not an IP address").
  - exact (proj1 (Hsib Fixture.lib "not an IP address" eq_refl)).
Defined.

(** ** The default gateway *)

(** [g], at index [i], is the first entry of the column that is not the
    zero address. *)
Definition first_nonzero_at (ips : list string) (i : nat) (g : string) : Prop :=
  ips !! i = Some g ∧ g ≠ "0.0.0.0" ∧
  ∀ (j : nat) (h : string), (j < i)%nat → ips !! j = Some h → h = "0.0.0.0".

Lemma first_nonzero_at_cons_zero (ips : list string) (i : nat) (g : string) :
  first_nonzero_at ("0.0.0.0" :: ips) i g →
  ∃ i', i = S i' ∧ first_nonzero_at ips i' g.
Proof.
  intros (Hi & Hg & Hbefore). destruct i as [| i'].
  - simpl in Hi. congruence.
  - exists i'. split; [reflexivity |]. split; [exact Hi |]. split; [exact Hg |].
    intros j h Hj Hh. apply (Hbefore (S j) h); [lia | exact Hh].
Qed.

Lemma first_nonzero_at_head (ip : string) (ips : list string) (i : nat) (g : string) :
  ip ≠ "0.0.0.0" → first_nonzero_at (ip :: ips) i g → i = 0%nat ∧ g = ip.
Proof.
  intros Hip (Hi & Hg & Hbefore). destruct i as [| i'].
  - simpl in Hi. split; congruence.
  - exfalso. apply Hip. apply (Hbefore 0%nat ip); [lia | reflexivity].
Qed.

Lemma firstNonZeroGateway_first (ips : list string) (i : nat) (g : string) :
  first_nonzero_at ips i g → firstNonZeroGateway ips = g.
Proof.
  revert i. induction ips as [| ip rest IH]; intros i Hf.
  - destruct Hf as (Hi & _). rewrite lookup_nil in Hi. discriminate.
  - simpl. destruct (String.eqb_spec ip "0.0.0.0") as [-> | Hne]; simpl.
    + apply first_nonzero_at_cons_zero in Hf as (i' & _ & Hf). by apply (IH i').
    + apply (first_nonzero_at_head _ _ _ _ Hne) in Hf as [_ ->]. reflexivity.
Qed.

Lemma firstNonZeroGateway_zero (ips : list string) :
  firstNonZeroGateway ips = "0.0.0.0" ↔ Forall (fun g => g = "0.0.0.0") ips.
Proof.
  induction ips as [| ip rest IH]; simpl.
  - split; [constructor | reflexivity].
  - destruct (String.eqb_spec ip "0.0.0.0") as [-> | Hne]; simpl.
    + rewrite IH. split; [by constructor | by inversion 1].
    + split; [congruence | by inversion 1].
Qed.

Lemma gatewayInterfaceFrom_first (ips names : list string) (i k : nat) (g : string) :
  first_nonzero_at ips i g →
  gatewayInterfaceFrom k ips names =
    (_ ← errutil.IndexError "Fewer names in kernel routing table than IPs" (k + i) names;
     match names !! (k + i)%nat with
     | Some iface => Ret iface
     | None => Panic "index out of range"
     end).
Proof.
  revert i k. induction ips as [| ip rest IH]; intros i k Hf.
  - destruct Hf as (Hi & _). rewrite lookup_nil in Hi. discriminate.
  - simpl. destruct (String.eqb_spec ip "0.0.0.0") as [-> | Hne]; simpl.
    + apply first_nonzero_at_cons_zero in Hf as (i' & -> & Hf).
      rewrite (IH i' (S k) Hf). by replace (S k + i')%nat with (k + S i')%nat by lia.
    + apply (first_nonzero_at_head _ _ _ _ Hne) in Hf as [-> _].
      by rewrite Nat.add_0_r.
Qed.

Lemma Gateway_Status_column (L : Lib) (W : World) (ips : list string) (ip : IP) :
  RoutingTableColumn L W "Gateway" = Ret ips →
  Status L W (Gateway ip) =
    Ret (if String.eqb (ip_String L ip) (firstNonZeroGateway ips)
         then errutil.Success
         else errutil.GenericError "Gateway does not have address"
                (ip_String L ip) [firstNonZeroGateway ips]).
Proof.
  intros Hcol. simpl. unfold Gateway_Status, getGatewayAddress.
  rewrite Hcol. simpl. by destruct (String.eqb _ _).
Qed.

(** C5. When the Gateway column has several rows, the [Gateway] check
    compares the configured address with the first entry that is not
    0.0.0.0, and the [GatewayInterface] check compares the configured name
    with the Iface entry of that same row; each reports the value it
    compared with. *)
Theorem Gateway_first_nonzero_row_wins
    (L : Lib) (W : World) (ips names : list string) (i : nat) (g : string) :
  RoutingTableColumn L W "Gateway" = Ret ips →
  RoutingTableColumn L W "Iface" = Ret names →
  first_nonzero_at ips i g →
  (∀ ip : IP,
      Status L W (Gateway ip) =
        Ret (if String.eqb (ip_String L ip) g
             then errutil.Success
             else errutil.GenericError "Gateway does not have address"
                    (ip_String L ip) [g]))
  ∧ (∀ iface : string,
      names !! i = Some iface →
      ∀ name : string,
        Status L W (GatewayInterface name) =
          Ret (if String.eqb name iface
               then errutil.Success
               else errutil.GenericError
                      "Default Gateway does not operate on interface" name [iface])).
Proof.
  intros Hg Hn Hf. split.
  - intros ip. rewrite (Gateway_Status_column L W ips ip Hg).
    by rewrite (firstNonZeroGateway_first ips i g Hf).
  - intros iface Hi name. simpl.
    unfold GatewayInterface_Status, getGatewayInterface.
    rewrite Hg, Hn. simpl.
    rewrite (gatewayInterfaceFrom_first ips names i 0 g Hf). simpl.
    unfold errutil.IndexError.
    pose proof (lookup_lt_Some names i iface Hi) as Hlt.
    destruct (Nat.leb_spec (length names) i) as [Hle | _]; [lia |]. simpl.
    rewrite Hi. simpl. by destruct (String.eqb _ _).
Qed.

Lemma Gateway_first_nonzero_row_wins_witness :
  first_nonzero_at ["0.0.0.0"; "192.168.0.1"; "10.0.0.1"] 1 "192.168.0.1"
  ∧ Status Fixture.lib Fixture.host (Gateway (Fixture.ip_of_text "10.0.0.1"))
      = Ret (errutil.GenericError "Gateway does not have address"
               "10.0.0.1" ["192.168.0.1"])
  ∧ Status Fixture.lib Fixture.host (GatewayInterface "eth0") = Ret errutil.Success.
Proof.
  assert (Hf : first_nonzero_at ["0.0.0.0"; "192.168.0.1"; "10.0.0.1"] 1 "192.168.0.1").
  { split; [reflexivity |]. split; [discriminate |].
    intros j h Hj Hh. destruct j as [| j]; [| lia]. simpl in Hh. congruence. }
  split; [exact Hf |].
  pose proof (Gateway_first_nonzero_row_wins Fixture.lib Fixture.host
                ["0.0.0.0"; "192.168.0.1"; "10.0.0.1"] ["eth1"; "eth0"; "eth1"]
                1 "192.168.0.1" eq_refl eq_refl Hf) as [Hgw Hif].
  split.
  - exact (Hgw (Fixture.ip_of_text "10.0.0.1")).
  - exact (Hif "eth0" eq_refl "eth0").
Defined.

(** C10. When the Gateway column has no entry other than 0.0.0.0, the
    [Gateway] check compares the configured address with 0.0.0.0: an
    address that prints as 0.0.0.0 passes and any other fails with 0.0.0.0
    as the observed value. And a configured 0.0.0.0 passes exactly when the
    column has no entry other than 0.0.0.0. *)
Theorem Gateway_without_default_route (L : Lib) (W : World) (ips : list string) :
  RoutingTableColumn L W "Gateway" = Ret ips →
  (Forall (fun g => g = "0.0.0.0") ips →
     ∀ ip : IP,
       Status L W (Gateway ip) =
         Ret (if String.eqb (ip_String L ip) "0.0.0.0"
              then errutil.Success
              else errutil.GenericError "Gateway does not have address"
                     (ip_String L ip) ["0.0.0.0"]))
  ∧ (∀ ip : IP,
       ip_String L ip = "0.0.0.0" →
       (Status L W (Gateway ip) = Ret errutil.Success
        ↔ Forall (fun g => g = "0.0.0.0") ips)).
Proof.
  intros Hcol. split.
  - intros Hzero ip. rewrite (Gateway_Status_column L W ips ip Hcol).
    apply firstNonZeroGateway_zero in Hzero. by rewrite Hzero.
  - intros ip Hip. rewrite (Gateway_Status_column L W ips ip Hcol), Hip.
    rewrite <- firstNonZeroGateway_zero.
    destruct (String.eqb_spec "0.0.0.0" (firstNonZeroGateway ips)) as [<- | Hne].
    + split; reflexivity.
    + split; [discriminate | congruence].
Qed.

Lemma Gateway_without_default_route_witness :
  Status Fixture.lib Fixture.host_no_gateway (Gateway (Fixture.ip_of_text "10.0.0.1"))
    = Ret (errutil.GenericError "Gateway does not have address" "10.0.0.1" ["0.0.0.0"])
  ∧ Status Fixture.lib Fixture.host_no_gateway (Gateway (Fixture.ip_of_text "0.0.0.0"))
    = Ret errutil.Success.
Proof.
  pose proof (Gateway_without_default_route Fixture.lib Fixture.host_no_gateway
                ["0.0.0.0"] eq_refl) as [Hother Hzero].
  assert (Hcol : Forall (fun g : string => g = "0.0.0.0") ["0.0.0.0"])
    by (constructor; [reflexivity | constructor]).
  split.
  - exact (Hother Hcol (Fixture.ip_of_text "10.0.0.1")).
  - exact (proj2 (Hzero (Fixture.ip_of_text "0.0.0.0") eq_refl) Hcol).
Defined.

(** ** The core temperature *)







(** ** Running processes *)

Lemma StrIn_elem_of (str : string) (slice : list string) :
  tabular.StrIn str slice = true ↔ str ∈ slice.
Proof.
  unfold tabular.StrIn. rewrite existsb_exists. split.
  - intros (x & Hx & Heq). apply String.eqb_eq in Heq as ->.
    by apply list_elem_of_In.
  - intros Hin. exists str. split; [by apply list_elem_of_In | apply String.eqb_refl].
Qed.

(** *** The thunks of package main *)

Module Thunks.

(** What the thunks ask of the host and of Go's [regexp]: the standard
    output and the error of a command, and [re.ReplaceAllString]. *)
Record Shell : Type := mkShell {
  cmd_Output : list string → string * option string;
  regexp_ReplaceAllString : Regexp → string → string → string
}.

(** Modelled from the spec: [fatal], the helper of package main that is not
    among the sources: the logging fatal that ends the whole process on an
    error; a nil error is no failure. *)
Definition fatal (err : option string) : outcome unit :=
  match err with
  | Some text => Fatal text
  | None => Ret tt
  end.

(** The pattern of [Running]: flag, space, quote, path, filename.json,
    quote. *)
Definition own_flag_pattern : string :=
  "-f\s+" +:+ dquote +:+ "*?.*?(health-checks/)*?[^/]*.json" +:+ dquote +:+ "*".

(** The thunk that [Running(proc)] returns, run. *)
Definition Running (L : Lib) (S : Shell) (proc : string) : outcome (Z * string) :=
  let '(stdoutBytes, err) := cmd_Output S ["ps"; "aux"] in
  _ ← fatal err;
  match regexp_Compile L own_flag_pattern with
  | None => fatal (Some "error parsing regexp") ≫= fun _ => Panic "nil pointer dereference"
  | Some re =>
      let filtered := regexp_ReplaceAllString S re stdoutBytes "" in
      if Contains filtered proc
      then Ret (0%Z, "")
      else Ret (1%Z, proc +:+ " is not running")
  end.

End Thunks.

(** The command entries of a [ps aux] listing: on every line after the
    header, the fields from the eleventh on. *)
Module PsListing.

Fixpoint split_at (sep : ascii) (s : string) : list string :=
  match s with
  | EmptyString => [""]
  | String c s' =>
      if Ascii.eqb c sep
      then "" :: split_at sep s'
      else match split_at sep s' with
           | [] => [String c ""]
           | w :: ws => String c w :: ws
           end
  end.

Definition fields (line : string) : list string :=
  filter (fun w => w ≠ "") (split_at " "%char line).

Definition command_entry (line : string) : option string :=
  match drop 10 (fields line) with
  | [] => None
  | words => Some (join_space words)
  end.

Definition command_entries (text : string) : list string :=
  omap command_entry (tail (split_at (ascii_of_nat 10) text)).

(** A listing of one process, run by root. *)
Definition one_process : string :=
  "USER PID %CPU %MEM VSZ RSS TTY STAT START TIME COMMAND" +:+ newline +:+
  "root 1 0.0 0.1 225868 9416 ? Ss 10:00 0:02 /sbin/init" +:+ newline.

(** A library whose patterns compile, and a host that lists that one
    process; its listing holds no flag for the pattern of [Running] to
    match, so the replacement leaves it as it is. *)
Definition lib : Lib :=
  mkLib (net_ParseIP Fixture.lib) (ip_String Fixture.lib) (ip_Equal Fixture.lib)
    (ip_To4 Fixture.lib) (netstatus_ValidIP Fixture.lib)
    (time_ParseDuration Fixture.lib) (fun p => Some p)
    (regexp_Match Fixture.lib) (regexp_Split Fixture.lib)
    (chkutil_SubmatchMap Fixture.lib) (tabular_ProbabalisticSplit Fixture.lib)
    (tabular_GetColumnByHeader Fixture.lib).

Definition shell : Thunks.Shell :=
  Thunks.mkShell (fun _ => (one_process, None)) (fun _ src _ => src).

End PsListing.

Example one_process_entries :
  PsListing.command_entries PsListing.one_process = ["/sbin/init"].
Proof. reflexivity. Qed.




(** ** The registry *)

Module Registry.

(** Modelled from the spec: the registry entry, which is not among the
    sources: a name, the expected parameter count and the constructor
    from the raw parameters. The name is the key of the map. *)
Record entry : Type := mkEntry {
  entry_arity : nat;
  entry_constructor : list string → Check * option error
}.

(** Modelled from the spec: [register], which is not among the sources.
    It adds an entry; a name registered twice is a programming error,
    fatal at startup. *)
Definition register (name : string) (n : nat)
    (constructor : list string → Check * option error)
    (reg : gmap string entry) : outcome (gmap string entry) :=
  match reg !! name with
  | Some _ => Fatal ("check registered twice: " +:+ name)
  | None => Ret (<[name := mkEntry n constructor]> reg)
  end.

(** Modelled from the spec: [lookup], which is not among the sources: the
    entry, or a not-found error. *)
Definition lookup (name : string) (reg : gmap string entry) : entry + string :=
  match reg !! name with
  | Some e => inl e
  | None => inr ("no such check: " +:+ name)
  end.

(** An entry registers a struct type when its constructor is the [New] of
    that type, called on its zero value. *)
Definition registers (L : Lib) (e : entry) (v : Variant) : Prop :=
  ∀ params, entry_constructor e params = New L (zero v) params.

End Registry.

Lemma registers_ID (L : Lib) (e : Registry.entry) (v : Variant) (params : list string) :
  Registry.registers L e v → ID (fst (Registry.entry_constructor e params)) = ID (zero v).
Proof. intros Hr. rewrite (Hr params). apply New_ID. Qed.

Lemma registers_one_variant (L : Lib) (e : Registry.entry) (v1 v2 : Variant) :
  Registry.registers L e v1 → Registry.registers L e v2 → v1 = v2.
Proof.
  intros H1 H2.
  assert (Hv : ∀ v, variant_of (zero v) = v) by (intros v; destruct v; reflexivity).
  rewrite <- (Hv v1), <- (Hv v2).
  rewrite <- (New_variant L (zero v1) []), <- (New_variant L (zero v2) []).
  by rewrite <- (H1 []), <- (H2 []).
Qed.

(** C9. The round trip cannot hold in a registry that holds
    [RoutingTableDestination] and one of the three struct types that return
    its name from [ID]: a registry has one entry per name, so whatever the
    names the two are registered under, at least one of them is looked up
    under a name that the [ID] of the check it constructs does not return. *)
Theorem Registry_round_trip_fails_on_shared_ID
    (L : Lib) (reg : gmap string Registry.entry)
    (n1 n2 : string) (e1 e2 : Registry.entry) (v : Variant) :
  v ∈ [VRoutingTableGateway; VResponseMatches; VResponseMatchesInsecure] →
  Registry.lookup n1 reg = inl e1 → Registry.registers L e1 VRoutingTableDestination →
  Registry.lookup n2 reg = inl e2 → Registry.registers L e2 v →
  ∃ (name : string) (e : Registry.entry),
    Registry.lookup name reg = inl e ∧
    ∀ params : list string, ID (fst (Registry.entry_constructor e params)) ≠ name.
Proof.
  intros Hv Hl1 Hr1 Hl2 Hr2.
  assert (Hid : ID (zero v) = "RoutingTableDestination").
  { apply list_elem_of_In in Hv. simpl in Hv.
    destruct Hv as [<- | [<- | [<- | []]]]; reflexivity. }
  assert (Hne : v ≠ VRoutingTableDestination).
  { apply list_elem_of_In in Hv. simpl in Hv.
    destruct Hv as [<- | [<- | [<- | []]]]; discriminate. }
  destruct (decide (n1 = "RoutingTableDestination")) as [-> | Hn1].
  - destruct (decide (n2 = "RoutingTableDestination")) as [-> | Hn2].
    + exfalso. apply Hne.
      assert (e1 = e2) as <- by congruence.
      by apply (registers_one_variant L e1).
    + exists n2, e2. split; [exact Hl2 |].
      intros params. rewrite (registers_ID L e2 v params Hr2), Hid. congruence.
  - exists n1, e1. split; [exact Hl1 |].
    intros params. rewrite (registers_ID L e1 _ params Hr1). simpl. congruence.
Qed.

Lemma Registry_round_trip_fails_on_shared_ID_witness :
  ∃ (name : string) (e : Registry.entry),
    Registry.lookup name
      (<["RoutingTableGateway" :=
           Registry.mkEntry 1 (New Fixture.lib (zero VRoutingTableGateway))]>
         (<["RoutingTableDestination" :=
              Registry.mkEntry 1 (New Fixture.lib (zero VRoutingTableDestination))]> ∅))
    = inl e ∧
    ∀ params : list string, ID (fst (Registry.entry_constructor e params)) ≠ name.
Proof.
  apply (Registry_round_trip_fails_on_shared_ID Fixture.lib _
           "RoutingTableDestination" "RoutingTableGateway"
           (Registry.mkEntry 1 (New Fixture.lib (zero VRoutingTableDestination)))
           (Registry.mkEntry 1 (New Fixture.lib (zero VRoutingTableGateway)))
           VRoutingTableGateway).
  - apply list_elem_of_In. simpl. tauto.
  - reflexivity.
  - intros params. reflexivity.
  - reflexivity.
  - intros params. reflexivity.
Defined.

(** Registering the two under their own identifier is the collision that
    [register] treats as fatal. *)
Lemma register_shared_ID_collides
    (L : Lib) (n : nat) (c : list string → Check * option error)
    (reg reg' : gmap string Registry.entry) :
  Registry.register (ID (zero VRoutingTableDestination)) n c reg = Ret reg' →
  Registry.register (ID (zero VRoutingTableGateway)) 1
    (New L (zero VRoutingTableGateway)) reg'
  = Fatal "check registered twice: RoutingTableDestination".
Proof.
  unfold Registry.register. simpl.
  destruct (reg !! "RoutingTableDestination"); [discriminate |].
  intros [= <-]. by rewrite lookup_insert_eq.
Qed.

(** ** More on construction *)

Definition all_digits (s : string) : bool :=
  forallb strconv.is_digit (list_ascii_of_string s).

Lemma digits_value_all_digits (s : string) (acc : Z) :
  all_digits s = true ↔ ∃ v, strconv.digits_value acc s = Some v.
Proof.
  unfold all_digits. revert acc. induction s as [| c s IH]; simpl; intros acc.
  - split; [by eexists | reflexivity].
  - destruct (strconv.is_digit c); simpl.
    + apply IH.
    + split; [discriminate | intros [v Hv]; discriminate].
Qed.

(** X1. [parsePort] returns a nil error exactly for the non-empty strings of
    decimal digits (no sign, no blank) whose value is at most 65535, and the
    port is then that value; otherwise it returns port 0 and the parser's
    error. The branch of the source that would return port 0 with a nil
    error is never taken. *)
Theorem parsePort_accepts_decimal_uint16 (s : string) :
  match parsePort s with
  | (p, None) =>
      s ≠ "" ∧ all_digits s = true ∧
      strconv.digits_value 0 s = Some p ∧ (0 <= p <= 65535)%Z
  | (p, Some _) =>
      p = 0%Z ∧
      (s = "" ∨ all_digits s = false ∨
       ∃ v, strconv.digits_value 0 s = Some v ∧ (65535 < v)%Z)
  end.
Proof.
  rewrite parsePort_ParseUint.
  destruct (strconv.ParseUint s 16) as [p | e] eqn:Hp.
  - pose proof (ParseUint_range s 16 p Hp) as Hr.
    change (2 ^ 16)%Z with 65536%Z in Hr.
    unfold strconv.ParseUint in Hp. destruct s as [| c s]; [discriminate |].
    destruct (strconv.digits_value 0 (String c s)) as [v |] eqn:Hd; [| discriminate].
    destruct (v <? 2 ^ 16)%Z; [| discriminate]. injection Hp as ->.
    split; [discriminate |]. split; [| split; [reflexivity | lia]].
    apply (digits_value_all_digits _ 0%Z). by eexists.
  - split; [reflexivity |].
    unfold strconv.ParseUint in Hp. destruct s as [| c s]; [by left |]. right.
    destruct (strconv.digits_value 0 (String c s)) as [v |] eqn:Hd.
    + right. exists v. split; [reflexivity |].
      destruct (Z.ltb_spec v (2 ^ 16)) as [Hlt | Hge]; [discriminate |].
      change (2 ^ 16)%Z with 65536%Z in Hge. lia.
    + left. destruct (all_digits (String c s)) eqn:Ha; [| reflexivity].
      apply (digits_value_all_digits _ 0%Z) in Ha as [v Hv]. congruence.
Qed.



(** X3. A content check must be built by [New] before it runs: on the zero
    value of [ResponseMatches], [ResponseMatchesInsecure] or
    [CommandOutputMatches] the pattern is nil and [Status] panics as soon as
    the page or the output is there, while on a check that [New] returned
    without error [Status] returns a result. *)
Theorem content_checks_need_New (L : Lib) (W : World) (v : Variant) (params : list string) :
  v ∈ [VResponseMatches; VResponseMatchesInsecure; VCommandOutputMatches] →
  (∀ secure, returns (chkutil_URLToBytes W "" secure) = true) →
  (∀ secure, returns (chkutil_URLToBytes W (index params 0) secure) = true) →
  (∀ command, snd (cmd_CombinedOutput W ["bash"; "-c"; command]) = None) →
  Status L W (zero v) = Panic "nil pointer dereference"
  ∧ (snd (New L (zero v) params) = None →
     returns (Status L W (fst (New L (zero v) params))) = true).
Proof.
  intros Hv Hzero Hurl Hcmd.
  apply list_elem_of_In in Hv. simpl in Hv.
  destruct Hv as [<- | [<- | [<- | []]]]; simpl;
    unfold ResponseMatchesGeneral, CommandOutputMatches_Status.
  - split.
    + specialize (Hzero true). by destruct (chkutil_URLToBytes W "" true).
    + destruct (negb (length params =? 2)%nat); [discriminate |].
      destruct (regexp_Compile L (index params 1)); [| discriminate].
      intros _. simpl. unfold ResponseMatchesGeneral.
      specialize (Hurl true).
      destruct (chkutil_URLToBytes W (index params 0) true); try discriminate.
      simpl. by destruct (regexp_Match L r a).
  - split.
    + specialize (Hzero false). by destruct (chkutil_URLToBytes W "" false).
    + destruct (negb (length params =? 2)%nat); [discriminate |].
      destruct (regexp_Compile L (index params 1)); [| discriminate].
      intros _. simpl. unfold ResponseMatchesGeneral.
      specialize (Hurl false).
      destruct (chkutil_URLToBytes W (index params 0) false); try discriminate.
      simpl. by destruct (regexp_Match L r a).
  - split.
    + pose proof (Hcmd "") as H0.
      destruct (cmd_CombinedOutput W ["bash"; "-c"; ""]) as [out err].
      simpl in H0. by subst err.
    + destruct (negb (length params =? 2)%nat); [discriminate |].
      destruct (regexp_Compile L (index params 1)); [| discriminate].
      intros _. simpl. unfold CommandOutputMatches_Status.
      pose proof (Hcmd (index params 0)) as H0.
      destruct (cmd_CombinedOutput W ["bash"; "-c"; index params 0]) as [out err].
      simpl in H0. subst err. simpl. by destruct (regexp_Match L r out).
Qed.

Lemma content_checks_need_New_witness :
  Status Fixture.lib Fixture.host (zero VResponseMatches)
    = Panic "nil pointer dereference"
  ∧ returns (Status Fixture.lib Fixture.host
               (fst (New Fixture.lib (zero VResponseMatches)
                       ["http://eff.org"; "html"]))) = true.
Proof.
  destruct (content_checks_need_New Fixture.lib Fixture.host VResponseMatches
              ["http://eff.org"; "html"]) as [Hzero Hbuilt].
  - apply list_elem_of_In. simpl. tauto.
  - intros secure. reflexivity.
  - intros secure. reflexivity.
  - intros command. simpl.
    destruct (bool_decide (["bash"; "-c"; command] = ["sensors"])); reflexivity.
  - split; [exact Hzero | exact (Hbuilt eq_refl)].
Defined.

(** ** More on execution *)

(** X4. [InterfaceExists] passes exactly when an interface of the host has
    the name; [Up] passes exactly when an interface with the name has the
    up flag set; so whenever [Up] passes, [InterfaceExists] passes. *)
Theorem Up_implies_InterfaceExists (L : Lib) (W : World) (name : string) :
  ∃ rE rU,
    Status L W (InterfaceExists name) = Ret rE ∧
    Status L W (Up name) = Ret rU ∧
    (code rE = 0%Z ↔
       ∃ iface, iface ∈ netstatus_GetInterfaces W ∧ Name iface = name) ∧
    (code rU = 0%Z ↔
       ∃ iface, iface ∈ netstatus_GetInterfaces W ∧ Name iface = name ∧
                N.land (Flags iface) FlagUp ≠ 0%N) ∧
    (code rU = 0%Z → code rE = 0%Z).
Proof.
  simpl. unfold InterfaceExists_Status, Up_Status.
  set (ifaces := netstatus_GetInterfaces W).
  assert (HE : existsb (fun iface => String.eqb iface name) (map Name ifaces) = true
               ↔ ∃ iface, iface ∈ ifaces ∧ Name iface = name).
  { rewrite existsb_exists. split.
    - intros (n & Hn & Heq). apply String.eqb_eq in Heq as ->.
      apply in_map_iff in Hn as (iface & Hname & Hin).
      exists iface. split; [by apply list_elem_of_In | exact Hname].
    - intros (iface & Hin & Hname). exists name. split; [| apply String.eqb_refl].
      apply in_map_iff. exists iface. split; [exact Hname | by apply list_elem_of_In]. }
  assert (HU : tabular.StrIn name
                 (map Name (filter (fun iface => N.land (Flags iface) FlagUp ≠ 0%N) ifaces))
               = true
               ↔ ∃ iface, iface ∈ ifaces ∧ Name iface = name ∧
                          N.land (Flags iface) FlagUp ≠ 0%N).
  { rewrite StrIn_elem_of, list_elem_of_fmap. split.
    - intros (iface & -> & Hin). apply list_elem_of_filter in Hin as [Hup Hin].
      exists iface. eauto.
    - intros (iface & Hin & <- & Hup). exists iface. split; [reflexivity |].
      apply list_elem_of_filter. eauto. }
  destruct (existsb _ (map Name ifaces)) eqn:He;
    destruct (tabular.StrIn name _) eqn:Hu;
    do 2 eexists; (split; [reflexivity |]); (split; [reflexivity |]); simpl.
  - split; [split; [intros _; by apply HE | reflexivity] |].
    split; [split; [intros _; by apply HU | reflexivity] | reflexivity].
  - split; [split; [intros _; by apply HE | reflexivity] |].
    split; [| discriminate].
    split; [discriminate | intros Hex; apply HU in Hex; discriminate].
  - exfalso. destruct (proj1 HU eq_refl) as (iface & Hin & Hname & _).
    assert (false = true) by (apply HE; eauto). discriminate.
  - split; [split; [discriminate | intros Hex; apply HE in Hex; discriminate] |].
    split; [| discriminate].
    split; [discriminate | intros Hex; apply HU in Hex; discriminate].
Qed.

(** X5. When the table read from [route -n] has no line at all, every check
    that reads a column of the routing table ends the run with the fatal
    message of [RoutingTableColumn]; none returns a result. *)
Theorem routing_checks_need_a_table (L : Lib) (W : World) (out : string) (chk : Check) :
  chkutil_CommandOutput W ["route"; "-n"] = Ret out →
  tabular_ProbabalisticSplit L out = [] →
  variant_of chk ∈ [VGateway; VGatewayInterface; VRoutingTableDestination;
                    VRoutingTableInterface; VRoutingTableGateway] →
  Status L W chk = Fatal "Routing table was not available or not properly parsed".
Proof.
  intros Hout Htable Hv.
  assert (Hcol : ∀ name, RoutingTableColumn L W name
                 = Fatal "Routing table was not available or not properly parsed").
  { intros name. unfold RoutingTableColumn. rewrite Hout. simpl. by rewrite Htable. }
  apply list_elem_of_In in Hv. simpl in Hv.
  destruct chk; simpl in Hv;
    (destruct Hv as [Hv | [Hv | [Hv | [Hv | [Hv | []]]]]]; try discriminate Hv); simpl;
    unfold Gateway_Status, getGatewayAddress, GatewayInterface_Status,
      getGatewayInterface, RoutingTableMatch;
    rewrite !Hcol; reflexivity.
Qed.

Lemma routing_checks_need_a_table_witness :
  Status
    (mkLib (net_ParseIP Fixture.lib) (ip_String Fixture.lib) (ip_Equal Fixture.lib)
       (ip_To4 Fixture.lib) (netstatus_ValidIP Fixture.lib)
       (time_ParseDuration Fixture.lib) (regexp_Compile Fixture.lib)
       (regexp_Match Fixture.lib) (regexp_Split Fixture.lib)
       (chkutil_SubmatchMap Fixture.lib) (fun _ => [])
       (tabular_GetColumnByHeader Fixture.lib))
    Fixture.host (RoutingTableInterface "eth0")
  = Fatal "Routing table was not available or not properly parsed".
Proof.
  apply (routing_checks_need_a_table _ Fixture.host "route" (RoutingTableInterface "eth0")).
  - reflexivity.
  - reflexivity.
  - apply list_elem_of_In. simpl. tauto.
Defined.

Lemma gatewayInterfaceFrom_all_zero (ips names : list string) (k : nat) :
  Forall (fun g => g = "0.0.0.0") ips → gatewayInterfaceFrom k ips names = Ret "".
Proof.
  intros Hz. revert k. induction Hz as [| ip rest -> _ IH]; intros k; simpl; [reflexivity |].
  apply IH.
Qed.

(** X6. Two edges of [GatewayInterface]. When no entry of the Gateway column
    differs from 0.0.0.0 the interface found is the empty string: the check
    passes for the empty name and fails for every other, reporting the empty
    string as observed. When the first entry other than 0.0.0.0 seats at a row
    the Iface column does not have, the check returns no result. *)
Theorem GatewayInterface_edges (L : Lib) (W : World) (ips names : list string) :
  RoutingTableColumn L W "Gateway" = Ret ips →
  RoutingTableColumn L W "Iface" = Ret names →
  (Forall (fun g => g = "0.0.0.0") ips →
     ∀ name,
       Status L W (GatewayInterface name) =
         Ret (if String.eqb name ""
              then errutil.Success
              else errutil.GenericError
                     "Default Gateway does not operate on interface" name [""]))
  ∧ (∀ (i : nat) (g : string),
       first_nonzero_at ips i g → (length names <= i)%nat →
       ∀ name, returns (Status L W (GatewayInterface name)) = false).
Proof.
  intros Hg Hn. split.
  - intros Hz name. simpl. unfold GatewayInterface_Status, getGatewayInterface.
    rewrite Hg, Hn. simpl. rewrite (gatewayInterfaceFrom_all_zero ips names 0 Hz).
    simpl. by destruct (String.eqb name "").
  - intros i g Hf Hlen name. simpl. unfold GatewayInterface_Status, getGatewayInterface.
    rewrite Hg, Hn. simpl. rewrite (gatewayInterfaceFrom_first ips names i 0 g Hf).
    simpl. unfold errutil.IndexError.
    destruct (Nat.leb_spec (length names) i) as [_ | Hlt]; [reflexivity | lia].
Qed.

Lemma GatewayInterface_edges_witness :
  Status Fixture.lib Fixture.host_no_gateway (GatewayInterface "") = Ret errutil.Success
  ∧ Status Fixture.lib Fixture.host_no_gateway (GatewayInterface "eth1")
    = Ret (errutil.GenericError
             "Default Gateway does not operate on interface" "eth1" [""]).
Proof.
  destruct (GatewayInterface_edges Fixture.lib Fixture.host_no_gateway
              ["0.0.0.0"] ["eth1"] eq_refl eq_refl) as [Hzero _].
  assert (Hcol : Forall (fun g : string => g = "0.0.0.0") ["0.0.0.0"])
    by (constructor; [reflexivity | constructor]).
  split; [exact (Hzero Hcol "") | exact (Hzero Hcol "eth1")].
Defined.

(** ** The threshold parameter of [Temp] *)

Lemma delete_all_from_digits (d t : string) (c : ascii) (o : string) :
  all_digits d = true → strconv.is_digit c = false →
  delete_all_from (String c o) 0 (d +:+ t) = d +:+ delete_all_from (String c o) 0 t.
Proof.
  intros Hd Hc. induction d as [| a d IH]; [reflexivity |].
  unfold all_digits in Hd. simpl in Hd. apply andb_true_iff in Hd as [Ha Hd].
  change (String a d +:+ t) with (String a (d +:+ t)).
  change (delete_all_from (String c o) 0 (String a (d +:+ t)))
    with (if Ascii.eqb c a && HasPrefix (d +:+ t) o
          then delete_all_from (String c o) (String.length (String c o) - 1) (d +:+ t)
          else String a (delete_all_from (String c o) 0 (d +:+ t))).
  destruct (Ascii.eqb_spec c a) as [-> | _]; [congruence |]. simpl.
  by rewrite (IH Hd).
Qed.

Lemma strip_celsius_digits (d t : string) :
  all_digits d = true → strip_celsius (d +:+ t) = d +:+ strip_celsius t.
Proof.
  intros Hd. unfold strip_celsius, celsius_glyphs, Replace_all_with_empty. simpl.
  by rewrite !delete_all_from_digits by first [exact Hd | reflexivity].
Qed.

Lemma append_empty_r (s : string) : s +:+ "" = s.
Proof.
  induction s as [| c s IH]; [reflexivity |].
  change (String c (s +:+ "") = String c s). by f_equal.
Qed.

Lemma ParseInt_digits (d : string) (v bitSize : Z) :
  d ≠ "" → all_digits d = true → strconv.digits_value 0 d = Some v →
  (v < 2 ^ (bitSize - 1))%Z → strconv.ParseInt d bitSize = inl v.
Proof.
  intros Hne Hd Hv Hlt. destruct d as [| c d]; [congruence |].
  unfold all_digits in Hd. simpl in Hd. apply andb_true_iff in Hd as [Hc _].
  unfold strconv.ParseInt.
  destruct (Ascii.eqb_spec c "+") as [-> | _]; [discriminate Hc |].
  destruct (Ascii.eqb_spec c "-") as [-> | _]; [discriminate Hc |].
  cbv zeta. simpl orb. cbv iota. rewrite Hv.
  by destruct (Z.ltb_spec v (2 ^ (bitSize - 1))) as [_ | Hge]; [| lia].
Qed.

(** The endings a threshold may carry: nothing, C, c, the degree sign, the
    degree-Celsius sign, or the degree sign before C or c. *)
Definition celsius_suffixes : list string := [""; "C"; "c"; "°"; "℃"; "°C"; "°c"].

(** X7. [Temp.New] accepts a decimal number below 32768 followed by any of
    the Celsius endings (none, C, c, the degree sign, the degree-Celsius
    sign, the degree sign with C or c) and builds the check with that number
    as its maximum, whatever the receiver held. *)
Theorem Temp_New_accepts_celsius (L : Lib) (old : Z) (d g : string) (v : Z) :
  d ≠ "" → all_digits d = true → strconv.digits_value 0 d = Some v →
  (v < 32768)%Z → g ∈ celsius_suffixes →
  New L (Temp old) [d +:+ g] = (Temp v, None).
Proof.
  intros Hne Hd Hv Hlt Hg.
  assert (Hstrip : strip_celsius (d +:+ g) = d).
  { rewrite (strip_celsius_digits d g Hd).
    apply list_elem_of_In in Hg. simpl in Hg.
    destruct Hg as [<- | [<- | [<- | [<- | [<- | [<- | [<- | []]]]]]]];
      (transitivity (d +:+ ""); [reflexivity | apply append_empty_r]). }
  simpl. unfold index. simpl. rewrite Hstrip.
  rewrite (ParseInt_digits d v 16 Hne Hd Hv Hlt).
  assert (0 <= v)%Z by exact (digits_value_nonneg d 0 v (Z.le_refl 0) Hv).
  by destruct (Z.ltb_spec v 0) as [Hneg | _]; [lia |].
Qed.

Lemma Temp_New_accepts_celsius_witness :
  New Fixture.lib (Temp 0) ["98°C"] = (Temp 98, None).
Proof.
  apply (Temp_New_accepts_celsius Fixture.lib 0 "98" "°C" 98).
  - discriminate.
  - reflexivity.
  - reflexivity.
  - reflexivity.
  - apply list_elem_of_In. simpl. tauto.
Defined.

(** ** More on the temperature lines *)

Lemma collectTemps_unreadable (L : Lib) (lines : list string) (line : string) :
  line ∈ lines →
  regexp_Match L restr line = true →
  returns (lineTemp L line) = false →
  ∃ msg, collectTemps L lines = Fatal msg.
Proof.
  intros Hin Hm Hbad.
  assert (Hshape : ∀ l, (∃ t, lineTemp L l = Ret t) ∨ (∃ msg, lineTemp L l = Fatal msg)).
  { intros l. unfold lineTemp.
    destruct (chkutil_SubmatchMap L restr l !! "Temp") as [temp |]; [| right; by eexists].
    destruct (strconv.ParseInt temp 64); [left | right]; by eexists. }
  induction lines as [| l rest IH]; [by apply elem_of_nil in Hin |].
  apply elem_of_cons in Hin as [<- | Hin]; simpl.
  - rewrite Hm. destruct (Hshape line) as [[t Ht] | [msg Hmsg]].
    + rewrite Ht in Hbad. discriminate.
    + rewrite Hmsg. simpl. by eexists.
  - destruct (IH Hin) as [msg Hrest].
    destruct (regexp_Match L restr l); [| by eexists].
    destruct (Hshape l) as [[t Ht] | [msg' Hmsg]].
    + rewrite Ht, Hrest. simpl. by eexists.
    + rewrite Hmsg. simpl. by eexists.
Qed.

(** X8. One unreadable line is enough to stop [Temp]: when any line of the
    [sensors] output matches the pattern but its temperature is not
    captured or does not parse as an int64, the check ends with a fatal
    error, even if core 0 was read from an earlier line. *)
Theorem Temp_unreadable_line_is_fatal
    (L : Lib) (W : World) (max : Z) (outstr line : string) :
  cmd_CombinedOutput W ["sensors"] = (outstr, None) →
  line ∈ regexp_Split L "\n+" outstr →
  regexp_Match L restr line = true →
  (chkutil_SubmatchMap L restr line !! "Temp" = None
   ∨ ∃ temp err, chkutil_SubmatchMap L restr line !! "Temp" = Some temp ∧
                 strconv.ParseInt temp 64 = inr err) →
  ∃ msg, Status L W (Temp max) = Fatal msg.
Proof.
  intros Hout Hin Hm Hbad.
  assert (Hline : returns (lineTemp L line) = false).
  { unfold lineTemp. destruct Hbad as [-> | (temp & err & -> & ->)]; reflexivity. }
  destruct (collectTemps_unreadable L _ line Hin Hm Hline) as [msg Hmsg].
  exists msg. simpl. unfold Temp_Status, getCoreTemp, allCoreTemps.
  rewrite Hout. simpl. by rewrite Hmsg.
Qed.

Lemma Temp_unreadable_line_is_fatal_witness :
  ∃ msg, Status Fixture.lib
           (mkWorld (netstatus_PortOpen Fixture.host) (netstatus_OpenPorts Fixture.host)
              (netstatus_GetInterfaces Fixture.host) (netstatus_InterfaceIPs Fixture.host)
              (netstatus_Resolvable Fixture.host) (netstatus_CanConnect Fixture.host)
              (chkutil_CommandOutput Fixture.host) (chkutil_URLToBytes Fixture.host)
              (chkutil_CommandColumnNoHeader Fixture.host)
              (cmd_Start Fixture.host) (cmd_Wait Fixture.host)
              (fun _ => ("Core 0:        +99999999999999999999.0°C  (high = +80.0°C)", None))
              (cmd_CombinedOutput_again Fixture.host))
           (Temp 50) = Fatal msg.
Proof.
  apply (Temp_unreadable_line_is_fatal Fixture.lib _ 50
           "Core 0:        +99999999999999999999.0°C  (high = +80.0°C)"
           "Core 0:        +99999999999999999999.0°C  (high = +80.0°C)").
  - reflexivity.
  - apply list_elem_of_In. simpl. tauto.
  - reflexivity.
  - left. reflexivity.
Defined.

(** X9. A check built without error owes nothing to the receiver: [New] on
    two receivers of the same struct type, with the same parameters, returns
    the same error, and when that error is nil the same check. *)
Theorem New_ignores_receiver_fields (L : Lib) (chk chk' : Check) (params : list string) :
  variant_of chk = variant_of chk' →
  snd (New L chk params) = snd (New L chk' params)
  ∧ (snd (New L chk params) = None →
     fst (New L chk params) = fst (New L chk' params)).
Proof.
  intros Hv.
  destruct chk, chk'; try discriminate Hv; simpl;
    repeat match goal with
      | |- context [if ?b then _ else _] => destruct b
      | |- context [match ?x with _ => _ end] => destruct x
      end; simpl; split; try reflexivity; intros H; try discriminate H; reflexivity.
Qed.

Lemma New_ignores_receiver_fields_witness :
  fst (New Fixture.lib (Port 80) ["8080"]) = fst (New Fixture.lib (zero VPort) ["8080"]).
Proof.
  exact (proj2 (New_ignores_receiver_fields Fixture.lib (Port 80) (zero VPort) ["8080"]
                  eq_refl) eq_refl).
Defined.

(** ** What [New] checks *)

(** X10. [New] returns a [ParameterLengthError] exactly when the number of
    parameters differs from the number the struct type declares; the error
    then holds that declared number and the parameters given, and the
    receiver comes back unchanged. *)
Theorem New_length_error_iff (L : Lib) (chk : Check) (params : list string) :
  (length params ≠ arity (variant_of chk) →
     New L chk params
     = (chk, Some (ParameterLengthError (arity (variant_of chk)) params)))
  ∧ (∀ (n : nat) (ps : list string),
       snd (New L chk params) = Some (ParameterLengthError n ps) →
       length params ≠ arity (variant_of chk)
       ∧ n = arity (variant_of chk) ∧ ps = params).
Proof.
  split.
  - intros Hlen.
    destruct chk; simpl in *;
      match goal with
      | |- context [(length params =? ?n)%nat] =>
          destruct (Nat.eqb_spec (length params) n) as [E | E];
          [contradiction | reflexivity]
      end.
  - intros n ps.
    destruct chk; simpl;
      match goal with
      | |- context [(length params =? ?k)%nat] =>
          destruct (Nat.eqb_spec (length params) k) as [E | E]; simpl
      end;
      repeat match goal with
        | |- context [if ?b then _ else _] => destruct b
        | |- context [match ?x with _ => _ end] => destruct x
        end; simpl; intros H; try discriminate H;
      injection H as <- <-; repeat split; exact E.
Qed.

Lemma New_length_error_iff_witness :
  New Fixture.lib (zero VPHPConfig) ["default_mimetype"]
  = (zero VPHPConfig, Some (ParameterLengthError 2 ["default_mimetype"])).
Proof.
  apply (proj1 (New_length_error_iff Fixture.lib (zero VPHPConfig) ["default_mimetype"])).
  simpl. discriminate.
Defined.



(** X12. When [New] returns a nil error, the parameters were as many as
    declared and the check returned is of the receiver's struct type with
    every field holding its converted parameter: a port within uint16, the
    parsed address, the parsed duration, the compiled pattern, a maximum
    within the non-negative int16, and the strings as given. *)
Theorem New_success_fields_typed (L : Lib) (chk : Check) (params : list string) :
  snd (New L chk params) = None →
  length params = arity (variant_of chk)
  ∧ variant_of (fst (New L chk params)) = variant_of chk
  ∧ typed_from L (fst (New L chk params)) params.
Proof.
  destruct chk; simpl;
    destruct params as [| a [| b [| c params]]]; simpl;
    unfold index; simpl; rewrite ?parsePort_ParseUint;
    repeat match goal with
      | |- context [strconv.ParseUint ?s 16] =>
          destruct (strconv.ParseUint s 16) eqn:?; simpl
      | |- context [strconv.ParseInt ?s 16] =>
          destruct (strconv.ParseInt s 16) eqn:?; simpl
      | |- context [negb ?b] => destruct b eqn:?; simpl
      | |- context [match ?x with _ => _ end] => destruct x eqn:?; simpl
      | |- context [if ?b then _ else _] => destruct b eqn:?; simpl
      end;
    intros H; try discriminate H;
    repeat split; try reflexivity; try congruence;
    try (unfold index in *; simpl in *; congruence);
    try match goal with
      | H : strconv.ParseUint _ 16 = inl _ |- _ =>
          apply ParseUint_range in H; change (2 ^ 16)%Z with 65536%Z in H; lia
      | H : strconv.ParseInt _ 16 = inl _, H' : (_ <? 0)%Z = false |- _ =>
          apply ParseInt_range in H; [| lia];
          change (2 ^ (16 - 1))%Z with 32768%Z in H;
          apply Z.ltb_ge in H'; lia
      end.
Qed.

Lemma New_success_fields_typed_witness :
  length ["lo"; "10.0.0.1"] = arity VIP4
  ∧ variant_of (fst (New Fixture.lib (zero VIP4) ["lo"; "10.0.0.1"])) = VIP4
  ∧ typed_from Fixture.lib (fst (New Fixture.lib (zero VIP4) ["lo"; "10.0.0.1"]))
      ["lo"; "10.0.0.1"].
Proof.
  exact (New_success_fields_typed Fixture.lib (zero VIP4) ["lo"; "10.0.0.1"] eq_refl).
Defined.

(** ** The package query of package main *)

Module Packages.

(** [getManager]: the first program of the list whose [--version] starts, or
    fails to start for a reason other than not being found; the fatal log
    when none does. *)
Fixpoint getManager (W : World) (managers : list string) : outcome string :=
  match managers with
  | [] => Fatal "No package manager found"
  | program :: rest =>
      let message :=
        match cmd_Start W [program; "--version"] with
        | Some err => err
        | None => ""
        end in
      if Bool.eqb (Contains message "not found") false
      then Ret program
      else getManager W rest
  end.

(** [getQuery]: the command and the option that query a package. *)
Definition getQuery (program : string) : outcome (string * string) :=
  if String.eqb program "dpkg" then Ret ("dpkg", "-s")
  else if String.eqb program "rpm" then Ret ("rpm", "-q")
  else if String.eqb program "pacman" then Ret ("pacman", "-Qs")
  else Fatal "Unsupported package manager".

Definition managers : list string := ["dpkg"; "rpm"; "pacman"].

(** The thunk that [Installed(pkg)] returns, run. *)
Definition Installed (W : World) (S : Thunks.Shell) (pkg : string)
  : outcome (Z * string) :=
  program ← getManager W managers;
  query ← getQuery program;
  let '(name, options) := query in
  let '(out, _) := Thunks.cmd_Output S [name; options; pkg] in
  if Bool.eqb (Contains out pkg) false
  then Ret (1%Z, "Package " +:+ pkg +:+ " was not found with " +:+ name +:+ newline)
  else Ret (0%Z, "").

(** The program is there: starting it does not fail with a not-found
    error. *)
Definition available (W : World) (program : string) : bool :=
  match cmd_Start W [program; "--version"] with
  | Some err => negb (Contains err "not found")
  | None => true
  end.

End Packages.

Lemma getManager_head (W : World) (program : string) (rest : list string) :
  Packages.getManager W (program :: rest) =
    if Packages.available W program then Ret program else Packages.getManager W rest.
Proof.
  simpl. unfold Packages.available.
  destruct (cmd_Start W [program; "--version"]) as [err |]; [| reflexivity].
  by destruct (Contains err "not found").
Qed.

(** X13. [getManager] returns the first program of its list, in order, that
    is available, so dpkg is preferred to rpm and rpm to pacman; when none
    is available the run ends with the fatal log. *)
Theorem getManager_first_available (W : World) (managers : list string) :
  (∀ (before after : list string) (program : string),
      managers = (before ++ program :: after)%list →
      Forall (fun m => Packages.available W m = false) before →
      Packages.available W program = true →
      Packages.getManager W managers = Ret program)
  ∧ (Forall (fun m => Packages.available W m = false) managers →
     Packages.getManager W managers = Fatal "No package manager found").
Proof.
  split.
  - intros before after program -> Hbefore Hp.
    induction Hbefore as [| m before Hm _ IH].
    + change (([] ++ program :: after)%list) with (program :: after).
      by rewrite getManager_head, Hp.
    + change (((m :: before) ++ program :: after)%list)
        with (m :: (before ++ program :: after)%list).
      by rewrite getManager_head, Hm.
  - induction 1 as [| m rest Hm _ IH]; [reflexivity |].
    by rewrite getManager_head, Hm.
Qed.

Lemma getManager_first_available_witness :
  Packages.getManager Fixture.host Packages.managers = Ret "dpkg".
Proof.
  apply (proj1 (getManager_first_available Fixture.host Packages.managers)
           [] ["rpm"; "pacman"] "dpkg" eq_refl).
  - constructor.
  - reflexivity.
Defined.

Lemma getManager_member (W : World) (managers : list string) (program : string) :
  Packages.getManager W managers = Ret program → program ∈ managers.
Proof.
  induction managers as [| m rest IH]; [discriminate |].
  rewrite getManager_head. destruct (Packages.available W m).
  - intros [= <-]. apply elem_of_cons. by left.
  - intros H. apply elem_of_cons. right. by apply IH.
Qed.

(** X14. [Installed] never stops on an unsupported package manager: either
    no manager is available and the run ends with that fatal log, or it
    returns code 0 with no message or code 1 with a message, and it returns 0
    exactly when the output of the query of the first available manager
    contains the package name. *)
Theorem Installed_outcomes (W : World) (S : Thunks.Shell) (pkg : string) :
  (Forall (fun m => Packages.available W m = false) Packages.managers ∧
   Packages.Installed W S pkg = Fatal "No package manager found")
  ∨ ∃ (program options : string) (c : Z) (m : string),
      Packages.getManager W Packages.managers = Ret program ∧
      Packages.getQuery program = Ret (program, options) ∧
      Packages.Installed W S pkg = Ret (c, m) ∧
      (c = 0%Z ∨ c = 1%Z) ∧ (c = 0%Z ↔ m = "") ∧
      (c = 0%Z ↔ Contains (fst (Thunks.cmd_Output S [program; options; pkg])) pkg = true).
Proof.
  unfold Packages.Installed.
  destruct (Packages.getManager W Packages.managers) as [program | msg | msg] eqn:Hg.
  - right. pose proof (getManager_member W _ program Hg) as Hin.
    apply list_elem_of_In in Hin. simpl in Hin.
    destruct Hin as [<- | [<- | [<- | []]]]; simpl;
      match goal with
      | |- context [Thunks.cmd_Output S ?cmd] =>
          destruct (Thunks.cmd_Output S cmd) as [out err] eqn:Hout
      end; simpl;
      destruct (Contains out pkg) eqn:Hc; simpl;
      do 4 eexists; (split; [reflexivity |]); (split; [reflexivity |]);
      (split; [reflexivity |]); rewrite ?Hout; simpl; rewrite ?Hc;
      (split; [tauto |]); split; split; intros Hx;
      first [reflexivity | discriminate Hx | simpl in Hx; discriminate Hx].
  - left. unfold Packages.managers in *.
    rewrite !getManager_head in Hg.
    destruct (Packages.available W "dpkg") eqn:H1; [discriminate |].
    destruct (Packages.available W "rpm") eqn:H2; [discriminate |].
    destruct (Packages.available W "pacman") eqn:H3; [discriminate |].
    simpl in Hg. injection Hg as <-.
    split; [repeat constructor; assumption | reflexivity].
  - exfalso. unfold Packages.managers in Hg. rewrite !getManager_head in Hg.
    destruct (Packages.available W "dpkg"); [discriminate |].
    destruct (Packages.available W "rpm"); [discriminate |].
    destruct (Packages.available W "pacman"); discriminate.
Qed.

Lemma Installed_outcomes_witness :
  Packages.Installed Fixture.host PsListing.shell "init"
  = Ret (0%Z, "").
Proof.
  destruct (Installed_outcomes Fixture.host PsListing.shell "init")
    as [[Hnone _] | (program & options & c & m & Hg & Hq & Hi & _ & Hm & Hc)].
  - inversion Hnone as [| ? ? Hd _]. discriminate Hd.
  - rewrite Hi.
    assert (program = "dpkg") as -> by (vm_compute in Hg; congruence).
    assert (options = "-s") as -> by (vm_compute in Hq; congruence).
    assert (c = 0%Z) as -> by (apply Hc; reflexivity).
    assert (m = "") as -> by (by apply Hm).
    reflexivity.
Defined.

(** ** The unit files of systemd *)

Module wrkutils.

(** Modelled from the spec: [wrkutils.GenericError], which is not among the
    sources: the check ran and the condition was false, code 1 and a message
    naming the condition, the expected value and the observed values. *)
Definition GenericError (msg specified : string) (actual : list string) : Z * string :=
  (1%Z,
   msg +:+ ":" +:+ " specified: " +:+ specified
       +:+ " actual: " +:+ Sprint_strings actual).

End wrkutils.

Module Systemctl.

(** [parameters[i]], which panics outside the slice. *)
Definition parameter (parameters : list string) (i : nat) : outcome string :=
  match parameters !! i with
  | Some p => Ret p
  | None => Panic "index out of range"
  end.

(** [s[:len(s)-2]], which panics on a slice of fewer than two elements. *)
Definition withoutLastTwo (s : list string) : outcome (list string) :=
  if (length s <? 2)%nat
  then Panic "slice bounds out of range"
  else Ret (take (length s - 2) s).

(** [getUnitFilesWithStatuses]: the first two columns of the listing of unit
    files, read by [wrkutils.CommandColumnNoHeader] (the same collaborator
    as the one of [chkutil]), without their last two entries. *)
Definition getUnitFilesWithStatuses (W : World) : outcome (list string * list string) :=
  let cmd := ["systemctl"; "--no-pager"; "list-unit-files"] in
  units ← chkutil_CommandColumnNoHeader W 0 cmd;
  statuses ← chkutil_CommandColumnNoHeader W 1 cmd;
  units' ← withoutLastTwo units;
  statuses' ← withoutLastTwo statuses;
  Ret (units', statuses').

(** The loop of [systemctlUnitFileStatus], at index [i] of [units], with the
    status seen last. *)
Fixpoint unitFileLoop (unit status : string) (i : nat)
    (units statuses : list string) (actualStatus : string) : outcome (Z * string) :=
  match units with
  | [] => Ret (wrkutils.GenericError "Unit didn't have status" status [actualStatus])
  | un :: rest =>
      if String.eqb un unit
      then match statuses !! i with
           | None => Panic "index out of range"
           | Some actual =>
               if String.eqb actual status
               then Ret (0%Z, "")
               else unitFileLoop unit status (S i) rest statuses actual
           end
      else unitFileLoop unit status (S i) rest statuses actualStatus
  end.

Definition systemctlUnitFileStatus (W : World) (parameters : list string)
  : outcome (Z * string) :=
  unit ← parameter parameters 0;
  status ← parameter parameters 1;
  columns ← getUnitFilesWithStatuses W;
  let '(units, statuses) := columns in
  unitFileLoop unit status 0 units statuses "".

End Systemctl.

Lemma unitFileLoop_passes_iff
    (unit status : string) (statuses units : list string) (i : nat) (actual : string) :
  (length units + i <= length statuses)%nat →
  ∃ (c : Z) (m : string),
    Systemctl.unitFileLoop unit status i units statuses actual = Ret (c, m) ∧
    (c = 0%Z ↔
       ∃ j, units !! j = Some unit ∧ statuses !! (i + j)%nat = Some status).
Proof.
  revert i actual. induction units as [| un rest IH]; intros i actual Hlen; simpl.
  - do 2 eexists. split; [reflexivity |]. split; [discriminate |].
    intros (j & Hj & _). rewrite lookup_nil in Hj. discriminate.
  - simpl in Hlen.
    assert (Hshift : ∀ a,
      ∃ c m, Systemctl.unitFileLoop unit status (S i) rest statuses a = Ret (c, m) ∧
             (c = 0%Z ↔ ∃ j, rest !! j = Some unit ∧
                              statuses !! (i + S j)%nat = Some status)).
    { intros a. destruct (IH (S i) a ltac:(lia)) as (c & m & Hr & Hc).
      exists c, m. split; [exact Hr |]. rewrite Hc.
      split; intros (j & Hj & Hs); exists j; (split; [exact Hj |]);
        by replace (i + S j)%nat with (S i + j)%nat in * by lia. }
    destruct (String.eqb_spec un unit) as [-> | Hne].
    + destruct (statuses !! i) as [st |] eqn:Hst.
      * destruct (String.eqb_spec st status) as [-> | Hs].
        -- do 2 eexists. split; [reflexivity |]. split; [intros _ | reflexivity].
           exists 0%nat. split; [reflexivity |]. by rewrite Nat.add_0_r.
        -- destruct (Hshift st) as (c & m & Hr & Hc). exists c, m.
           split; [exact Hr |]. rewrite Hc. split.
           ++ intros (j & Hj & Hsj). exists (S j). split; [exact Hj | exact Hsj].
           ++ intros ([| j] & Hj & Hsj).
              ** rewrite Nat.add_0_r in Hsj. congruence.
              ** exists j. split; [exact Hj | exact Hsj].
      * apply lookup_ge_None in Hst. lia.
    + destruct (Hshift actual) as (c & m & Hr & Hc). exists c, m.
      split; [exact Hr |]. rewrite Hc. split.
      * intros (j & Hj & Hsj). exists (S j). split; [exact Hj | exact Hsj].
      * intros ([| j] & Hj & Hsj).
        -- simpl in Hj. congruence.
        -- exists j. split; [exact Hj | exact Hsj].
Qed.

(** X15. [systemctlUnitFileStatus] leaves out the last two entries of the
    listing, and returns code 0 exactly when one of the remaining rows has
    both the unit and the status asked for; a listing with fewer than two
    entries makes it panic, and so does a parameter list shorter than
    two. *)
Theorem systemctlUnitFileStatus_row_match
    (W : World) (unit status : string) (units statuses : list string) :
  chkutil_CommandColumnNoHeader W 0 ["systemctl"; "--no-pager"; "list-unit-files"]
    = Ret units →
  chkutil_CommandColumnNoHeader W 1 ["systemctl"; "--no-pager"; "list-unit-files"]
    = Ret statuses →
  ((2 <= length units <= length statuses)%nat →
     ∃ (c : Z) (m : string),
       Systemctl.systemctlUnitFileStatus W [unit; status] = Ret (c, m) ∧
       (c = 0%Z ↔
          ∃ j, (j < length units - 2)%nat ∧
               units !! j = Some unit ∧ statuses !! j = Some status))
  ∧ ((length units < 2)%nat →
     Systemctl.systemctlUnitFileStatus W [unit; status]
     = Panic "slice bounds out of range")
  ∧ Systemctl.systemctlUnitFileStatus W [unit] = Panic "index out of range".
Proof.
  intros Hu Hs. split; [| split].
  - intros [H2 Hle].
    unfold Systemctl.systemctlUnitFileStatus, Systemctl.getUnitFilesWithStatuses,
      Systemctl.withoutLastTwo. simpl. rewrite Hu, Hs. simpl.
    destruct (Nat.ltb_spec (length units) 2) as [? | _]; [lia |].
    destruct (Nat.ltb_spec (length statuses) 2) as [? | _]; [lia |]. simpl.
    destruct (unitFileLoop_passes_iff unit status
                (take (length statuses - 2) statuses)
                (take (length units - 2) units) 0 "") as (c & m & Hr & Hc).
    { rewrite !length_take. lia. }
    exists c, m. split; [exact Hr |]. rewrite Hc. split.
    + intros (j & Hj & Hsj). simpl in Hsj.
      apply lookup_take_Some in Hj as [Hj Hlt].
      apply lookup_take_Some in Hsj as [Hsj _]. eauto.
    + intros (j & Hlt & Hj & Hsj). exists j. simpl. split.
      * apply lookup_take_Some. split; [exact Hj | exact Hlt].
      * apply lookup_take_Some. split; [exact Hsj | lia].
  - intros Hshort.
    unfold Systemctl.systemctlUnitFileStatus, Systemctl.getUnitFilesWithStatuses,
      Systemctl.withoutLastTwo. simpl. rewrite Hu, Hs. simpl.
    by destruct (Nat.ltb_spec (length units) 2) as [_ | ?]; [| lia].
  - reflexivity.
Qed.

Lemma systemctlUnitFileStatus_row_match_witness :
  ∃ (c : Z) (m : string),
    Systemctl.systemctlUnitFileStatus Fixture.host ["drm"; "drm"] = Ret (c, m) ∧
    (c = 0%Z ↔
       ∃ j, (j < length ["hid"; "drm"] - 2)%nat ∧
            ["hid"; "drm"] !! j = Some "drm" ∧ ["hid"; "drm"] !! j = Some "drm").
Proof.
  apply (proj1 (systemctlUnitFileStatus_row_match Fixture.host "drm" "drm"
                  ["hid"; "drm"] ["hid"; "drm"] eq_refl eq_refl)).
  simpl. lia.
Defined.
